(** * The enrichment pipeline of [DoclingHandler] (docling_handler.py)

    A shallow embedding of the enrichment stages of [DoclingHandler] and of
    the orchestrator [convert_document], with the properties the
    specification states about them.

    Conventions of the embedding.
    - A Python [str] is a Rocq [string] with one [ascii] per character, so
      the model covers texts whose code points are below 256 (Latin-1).
      Literals of the source that carry accents are written through [u],
      which decodes the UTF-8 bytes of this file into such characters.
    - A Python [float] is a primitive binary64 float.
    - A [try: ... except Exception] block is [catch body handler] over the
      error type [exc]; the external collaborators (conversion engine,
      captioning model, [re]) are parameters. *)

From Stdlib Require Import Ascii String PrimFloat SpecFloat FloatAxioms Uint63 ZArith.
From Stdlib Require Import DecimalString.
From stdpp Require Import gmap strings list.

Local Open Scope string_scope.

(** ** Python strings *)

Module Py.

(** Decoding of the UTF-8 two-byte sequences of Latin-1 characters, used
    only to write the accented literals of the source. *)
Fixpoint u_from (lead : option nat) (s : string) : string :=
  match s with
  | EmptyString => EmptyString
  | String c s' =>
    let n := nat_of_ascii c in
    match lead with
    | Some off => String (ascii_of_nat (n + off)) (u_from None s')
    | None =>
      if Nat.eqb n 194 then u_from (Some 0) s'
      else if Nat.eqb n 195 then u_from (Some 64) s'
      else String c (u_from None s')
    end
  end.

Definition u (s : string) : string := u_from None s.

(** [s.startswith(p)] *)
Fixpoint startswith (p s : string) : bool :=
  match p, s with
  | EmptyString, _ => true
  | String a p', String b s' => if Ascii.eqb a b then startswith p' s' else false
  | String _ _, EmptyString => false
  end.

(** [sub in s] *)
Fixpoint contains (sub s : string) : bool :=
  startswith sub s ||
  match s with
  | EmptyString => false
  | String _ s' => contains sub s'
  end.

(** [s.replace(old, new)]: occurrences of [old] are replaced from left to
    right without overlap; [skip] counts the characters of a replaced
    occurrence still to be dropped. *)
Fixpoint replace_from (old new : string) (skip : nat) (s : string) : string :=
  match s with
  | EmptyString => EmptyString
  | String c s' =>
    match skip with
    | S k => replace_from old new k s'
    | O =>
      if startswith old s
      then new +:+ replace_from old new (String.length old - 1) s'
      else String c (replace_from old new 0 s')
    end
  end.

(** With an empty [old], Python inserts [new] before every character and at
    the end. *)
Fixpoint replace_empty (new s : string) : string :=
  match s with
  | EmptyString => new
  | String c s' => new +:+ String c (replace_empty new s')
  end.

Definition replace (old new s : string) : string :=
  match old with
  | EmptyString => replace_empty new s
  | String _ _ => replace_from old new 0 s
  end.

(** [s.lower()] on Latin-1: A-Z and the accented capitals U+00C0-U+00DE
    (the multiplication sign U+00D7 apart) move up by 32. *)
Definition lower_char (c : ascii) : ascii :=
  let n := nat_of_ascii c in
  if (Nat.leb 65 n && Nat.leb n 90) || (Nat.leb 192 n && Nat.leb n 222 && negb (Nat.eqb n 215))
  then ascii_of_nat (n + 32) else c.

Fixpoint lower (s : string) : string :=
  match s with
  | EmptyString => EmptyString
  | String c s' => String (lower_char c) (lower s')
  end.

(** [c.isspace()] below U+0100: TAB, LF, VT, FF, CR, the separators
    U+001C-U+001F, space, NEL (U+0085) and the no-break space (U+00A0). *)
Definition isspace (c : ascii) : bool :=
  let n := nat_of_ascii c in
  (Nat.leb 9 n && Nat.leb n 13) || (Nat.leb 28 n && Nat.leb n 32) || Nat.eqb n 133 || Nat.eqb n 160.

(** [s.split()]: the maximal runs of non-space characters; [cur] is the
    word being read. *)
Fixpoint split_ws_from (cur : string) (s : string) : list string :=
  match s with
  | EmptyString => match cur with EmptyString => [] | _ => [cur] end
  | String c s' =>
    if isspace c
    then match cur with
         | EmptyString => split_ws_from EmptyString s'
         | _ => cur :: split_ws_from EmptyString s'
         end
    else split_ws_from (cur +:+ String c EmptyString) s'
  end.

Definition split_ws (s : string) : list string := split_ws_from EmptyString s.

(** [s.split(sep)] for a non-empty [sep] (Python raises ValueError on an
    empty one, which no call of the handler passes): the pieces between
    the occurrences of [sep], read from left to right without overlap; the
    result is never empty. *)
Fixpoint split_from (sep : string) (skip : nat) (s : string) : list string :=
  match s with
  | EmptyString => [EmptyString]
  | String c s' =>
    match skip with
    | S k => split_from sep k s'
    | O =>
      if startswith sep s
      then EmptyString :: split_from sep (String.length sep - 1) s'
      else match split_from sep 0 s' with
           | p :: ps => String c p :: ps
           | [] => [String c EmptyString]
           end
    end
  end.

Definition split (sep s : string) : list string := split_from sep 0 s.

(** [s.strip()] *)
Fixpoint lstrip (s : string) : string :=
  match s with
  | EmptyString => EmptyString
  | String c s' => if isspace c then lstrip s' else s
  end.

Fixpoint rstrip (s : string) : string :=
  match s with
  | EmptyString => EmptyString
  | String c s' =>
    match rstrip s' with
    | EmptyString => if isspace c then EmptyString else String c EmptyString
    | r => String c r
    end
  end.

Definition strip (s : string) : string := rstrip (lstrip s).

(** [str(n)] and the interpolation of an [int] in an f-string. *)
Definition str_of_nat (n : nat) : string := NilZero.string_of_uint (Nat.to_uint n).

(** [float(n)] for a length [n]; exact below 2^53. *)
Definition float_of_nat (n : nat) : float := PrimFloat.of_uint63 (Uint63.of_Z (Z.of_nat n)).

(** [min(a, b)] and [max(a, b)] return their first argument unless the
    second is strictly smaller (resp. larger). *)
Definition min (a b : float) : float := if PrimFloat.ltb b a then b else a.
Definition max (a b : float) : float := if PrimFloat.ltb a b then b else a.

(** Number of occurrences of the character [c] in [s]. *)
Fixpoint count_char (c : ascii) (s : string) : nat :=
  match s with
  | EmptyString => 0
  | String d s' => (if Ascii.eqb c d then 1 else 0) + count_char c s'
  end.

(** [sub] occurs in [s], stated without reference to a search procedure. *)
Definition Occurs (sub s : string) : Prop :=
  exists pre post : string, s = pre +:+ sub +:+ post.

End Py.

(** ** Exceptions *)

(** The outcome of a computation that may raise: a value, or the message
    of the exception. *)
Inductive exc (A : Type) : Type :=
| Ok (a : A)
| Raise (e : string).
Arguments Ok {A} a.
Arguments Raise {A} e.

#[export] Instance exc_ret : MRet exc := fun A a => Ok a.
#[export] Instance exc_bind : MBind exc := fun A B f m =>
  match m with
  | Ok a => f a
  | Raise e => Raise e
  end.

(** [try: body except Exception as e: handler e] *)
Definition catch {A : Type} (body : exc A) (handler : string -> A) : A :=
  match body with
  | Ok a => a
  | Raise e => handler e
  end.

Definition raises {A : Type} (m : exc A) : Prop := exists e, m = Raise e.

(** ** Data model *)

(** An attribute of a duck-typed collaborator object, as the handler uses
    it: [hasattr] may be false ([Missing]); when the attribute is there,
    using it the way the handler does (iterating it, taking its [len])
    gives a value ([Present]) or raises ([Unusable]). *)
Inductive attr (A : Type) : Type :=
| Missing
| Present (a : A)
| Unusable (e : string).
Arguments Missing {A}.
Arguments Present {A} a.
Arguments Unusable {A} e.

(** [x = default; if hasattr(obj, name): x = obj.name], then the use of [x]. *)
Definition attr_or {A : Type} (default : A) (a : attr A) : exc A :=
  match a with
  | Missing => Ok default
  | Present x => Ok x
  | Unusable e => Raise e
  end.

(** A table object: the handler only takes [len(table.rows)] and
    [len(table.columns)], so each attribute is modelled by its length. *)
Record Table : Type := { t_rows : attr nat; t_columns : attr nat }.

(** A document element: [label], [text], [level] and [list_type] are read
    with [hasattr] and [getattr] with a default. *)
Record Element : Type := {
  e_label : option string;
  e_text : option string;
  e_level : option Z;
  e_list_type : option string }.

(** [result.document] of the conversion engine. *)
Record Document (Image : Type) : Type := {
  export_to_html : exc string;
  export_to_markdown : exc string;
  images : attr (list Image);
  tables : attr (list Table);
  elements : attr (list Element) }.
Arguments export_to_html {Image} d.
Arguments export_to_markdown {Image} d.
Arguments images {Image} d.
Arguments tables {Image} d.
Arguments elements {Image} d.

Record ConversionResult (Image : Type) : Type := { document : Document Image }.
Arguments document {Image} c.

(** A match object of [re]: [match.group()] and [match.span()]. *)
Record Match : Type := { group : string; span : nat * nat }.

(** The records of the enriched result; the fields are the keys of the
    dictionaries the handler builds. *)
Record ImageDescription : Type := {
  img_index : nat;
  img_description_fr : string;
  img_description_en : string }.

Record FormulaInfo : Type := {
  fi_formula : string;
  fi_type : string;
  fi_description_fr : string;
  fi_description_en : string;
  fi_latex : option string;
  fi_simplified : option string }.

Record FormulaEnrichment : Type := {
  fe_original : string;
  fe_enriched : FormulaInfo;
  fe_position : nat * nat }.

Record TableInfo : Type := {
  ta_index : nat;
  ta_type : string;
  ta_description_fr : string;
  ta_description_en : string;
  ta_rows : nat;
  ta_columns : nat;
  ta_has_headers : bool;
  ta_data_types : list string;
  ta_summary : string }.

(** An entry of [table_analysis]: the analysis, or the error record
    [{"index", "error", "type"}]. *)
Inductive TableAnalysis : Type :=
| Analysed (a : TableInfo)
| TableError (index : nat) (error : string) (type : string).

Record Statistics : Type := {
  word_count : nat;
  character_count : nat;
  line_count : nat;
  paragraph_count : nat }.

Record ContentEnhancement : Type := {
  statistics : Statistics;
  content_type : string;
  language_detected : string;
  readability_score : float }.

Record Heading : Type := { h_text : string; h_level : Z }.
Record ListItem : Type := { l_text : string; l_type : string }.

Record DocumentStructure : Type := {
  ds_sections : list string;
  ds_headings : list Heading;
  ds_lists : list ListItem;
  ds_figures : list string;
  ds_tables : list string;
  ds_formulas : list string }.

Record Metadata : Type := {
  file_path : string;
  processing_time : option nat;
  features_used : list string }.

(** The values stored in the enriched result. *)
Inductive Value : Type :=
| VStr (s : string)
| VMetadata (m : Metadata)
| VImageDescriptions (l : list ImageDescription)
| VFormulaEnrichments (l : list FormulaEnrichment)
| VTableAnalysis (l : list TableAnalysis)
| VContentEnhancement (c : ContentEnhancement)
| VDocumentStructure (d : DocumentStructure).

(** The enriched result is a Python [dict] with string keys. *)
Abbreviation Aggregate := (gmap string Value).

(** [d[key]] *)
Definition getitem (d : Aggregate) (key : string) : exc Value :=
  match d !! key with
  | Some v => Ok v
  | None => Raise ("KeyError: " +:+ key)
  end.

(** The use of a value as a [str]: a [str] method called on anything else
    raises. *)
Definition as_str (v : Value) : exc string :=
  match v with
  | VStr s => Ok s
  | _ => Raise "AttributeError"
  end.

(** The converter of the conversion engine, as far as the handler touches
    it: its format options, each with the languages of its [ocr_params]
    when it has that attribute. *)
Record FormatOption : Type := { ocr_params : option (list string) }.
Record Converter : Type := { format_options : option (list FormatOption) }.

(** The fields of [self] that [convert_document] reads or writes. *)
Record Handler : Type := {
  converter : option Converter;
  model_loaded : bool;
  image_model_loaded : bool;
  formula_model_loaded : bool }.

(** The arguments of [convert_document]. *)
Record Request : Type := {
  req_file_path : string;
  output_format : string;
  include_images : bool;
  include_tables : bool;
  include_image_descriptions : bool;
  include_formula_enrichment : bool;
  ocr_languages : option (list string);
  enhance_content : bool }.

(** ** The methods of [DoclingHandler] *)

Module DoclingHandler.

(** *** The lexical translator *)

(** The table of [_translate_to_french], in the order of the dict. *)
Definition translations_to_french : list (string * string) :=
  [ ("a person", "une personne"); ("a man", "un homme"); ("a woman", "une femme");
    ("a dog", "un chien"); ("a cat", "un chat"); ("a car", "une voiture");
    ("a building", Py.u "un bâtiment"); ("a tree", "un arbre");
    ("a table", "une table"); ("a chair", "une chaise"); ("text", "texte");
    ("document", "document"); ("chart", "graphique"); ("diagram", "diagramme");
    ("image", "image") ].

(** The table of [_translate_to_english]. *)
Definition translations_to_english : list (string * string) :=
  [ ("une personne", "a person"); ("un homme", "a man"); ("une femme", "a woman");
    ("un chien", "a dog"); ("un chat", "a cat"); ("une voiture", "a car");
    (Py.u "un bâtiment", "a building"); ("un arbre", "a tree");
    ("une table", "a table"); ("une chaise", "a chair"); ("texte", "text");
    ("document", "document"); ("graphique", "chart"); ("diagramme", "diagram");
    ("image", "image") ].

(** [for src, dst in translations.items(): if src in probe: return
    text.replace(src, dst)], then [return text]. *)
Fixpoint translate_with (translations : list (string * string)) (probe text : string)
  : string :=
  match translations with
  | [] => text
  | (src, dst) :: rest =>
    if Py.contains src probe then Py.replace src dst text
    else translate_with rest probe text
  end.

(** The entries are looked for in [text.lower()] and replaced in [text]. *)
Definition _translate_to_french (text : string) : string :=
  translate_with translations_to_french (Py.lower text) text.

(** The entries are looked for in [text] itself. *)
Definition _translate_to_english (text : string) : string :=
  translate_with translations_to_english text text.

(** *** The formula enricher *)

Definition clean_formula (formula : string) : string :=
  Py.replace "\)" "" (Py.replace "\(" "" (Py.replace "\]" ""
    (Py.replace "\[" "" (Py.replace "$" "" formula)))).

Definition _enrich_single_formula (formula : string) : FormulaInfo :=
  catch
    (let clean := clean_formula formula in
     let enrichment := fun ty fr en =>
       {| fi_formula := clean; fi_type := ty;
          fi_description_fr := fr; fi_description_en := en;
          fi_latex := Some ("$" +:+ clean +:+ "$"); fi_simplified := Some clean |} in
     Ok (if Py.contains "+" clean || Py.contains "-" clean
         then enrichment "arithmetic" (Py.u "Opération arithmétique") "Arithmetic operation"
         else if Py.contains "=" clean
         then enrichment "equation" (Py.u "Équation mathématique") "Mathematical equation"
         else if Py.contains "^" clean || Py.contains "**" clean
         then enrichment "exponential" "Expression exponentielle" "Exponential expression"
         else enrichment "mathematical_expression" (Py.u "Expression mathématique")
                "Mathematical expression"))
    (fun _ =>
       {| fi_formula := formula; fi_type := "unknown";
          fi_description_fr := "Formule non reconnue";
          fi_description_en := "Unrecognized formula";
          fi_latex := None; fi_simplified := None |}).

(** *** The table enricher *)

Definition _analyze_single_table (table : Table) (index : nat) : TableAnalysis :=
  catch
    (rows ← attr_or 0 (t_rows table);
     columns ← attr_or 0 (t_columns table);
     let has_headers := Nat.ltb 0 rows in
     mret (Analysed
       {| ta_index := index;
          ta_type := "data_table";
          ta_description_fr :=
            if has_headers then Py.u "Tableau avec en-têtes" else Py.u "Tableau de données";
          ta_description_en := if has_headers then "Table with headers" else "Data table";
          ta_rows := rows;
          ta_columns := columns;
          ta_has_headers := has_headers;
          ta_data_types := [];
          ta_summary :=
            if Nat.ltb 0 rows && Nat.ltb 0 columns
            then "Tableau de " +:+ Py.str_of_nat rows +:+ " lignes et "
                 +:+ Py.str_of_nat columns +:+ " colonnes"
            else "" |}))
    (fun e => TableError index e "unknown").

(** *** Content statistics *)

(** [max(0, min(100, readability))]; at the bounds Python returns the
    integers 0 and 100, which are read here as the floats they equal. *)
Definition clamp (readability : float) : float :=
  Py.max 0 (Py.min 100 readability).

Definition _calculate_readability (text : Value) : float :=
  catch
    (s ← as_str text;
     let words := Py.split_ws s in
     let sentences := Py.split "." s in
     if Nat.eqb (length sentences) 0 || Nat.eqb (length words) 0 then Ok 0%float
     else
       let avg_words_per_sentence :=
         (Py.float_of_nat (length words) / Py.float_of_nat (length sentences))%float in
       let avg_chars_per_word :=
         (Py.float_of_nat (sum_list (String.length <$> words))
          / Py.float_of_nat (length words))%float in
       Ok (clamp (100 - (avg_words_per_sentence * 0.5) - (avg_chars_per_word * 2))%float))
    (fun _ => 50%float).

Definition detect_content_type (content : string) : string :=
  let content_type := "document" in
  let content_type :=
    if Py.contains "table" (Py.lower content) || Py.contains "|" content
    then "document_with_tables" else content_type in
  let content_type :=
    if Py.contains "image" (Py.lower content) || Py.contains "![image]" content
    then "document_with_images" else content_type in
  let content_type :=
    if existsb (fun char => Py.contains char content) ["$"; "\["; "\("]
    then "document_with_formulas" else content_type in
  content_type.

(** The body of the [try] block of [_enhance_content]. *)
Definition _enhance_content_try (enhanced_result : Aggregate) : exc Aggregate :=
     v ← getitem enhanced_result "content";
     content ← as_str v;
     let stats :=
       {| word_count := length (Py.split_ws content);
          character_count := String.length content;
          line_count := length (Py.split (String "010" "") content);
          paragraph_count :=
            length (filter (fun p => Py.strip p ≠ "")
                           (Py.split (String "010" (String "010" "")) content)) |} in
     mret (<["content_enhancement" :=
              VContentEnhancement
                {| statistics := stats;
                   content_type := detect_content_type content;
                   language_detected := "fr";
                   readability_score := _calculate_readability (VStr content) |}]>
           enhanced_result).

(** The only write is the last statement of the [try] block, so the
    handler returns the dictionary as it was passed in. *)
Definition _enhance_content (enhanced_result : Aggregate) : Aggregate :=
  catch (_enhance_content_try enhanced_result) (fun _ => enhanced_result).

(** *** The structure analyser *)

Definition empty_structure : DocumentStructure :=
  {| ds_sections := []; ds_headings := []; ds_lists := [];
     ds_figures := []; ds_tables := []; ds_formulas := [] |}.

(** One turn of [for element in result.document.elements]. *)
Definition bucket_element (structure : DocumentStructure) (element : Element)
  : DocumentStructure :=
  match e_label element with
  | None => structure
  | Some label =>
    if String.eqb label "heading" then
      {| ds_sections := ds_sections structure;
         ds_headings := ds_headings structure ++
           [ {| h_text := default "" (e_text element);
                h_level := default 1%Z (e_level element) |} ];
         ds_lists := ds_lists structure;
         ds_figures := ds_figures structure;
         ds_tables := ds_tables structure;
         ds_formulas := ds_formulas structure |}
    else if String.eqb label "list" then
      {| ds_sections := ds_sections structure;
         ds_headings := ds_headings structure;
         ds_lists := ds_lists structure ++
           [ {| l_text := default "" (e_text element);
                l_type := default "bullet" (e_list_type element) |} ];
         ds_figures := ds_figures structure;
         ds_tables := ds_tables structure;
         ds_formulas := ds_formulas structure |}
    else structure
  end.

(** *** The item loops

    The three collection loops, each with its item-level [try]. The
    methods they await are reached through [self]; the loops are written
    over any behaviour of these methods, and the stages below pass the
    methods of the class. *)

Section ItemLoops.

Context {Image : Type}.

Definition image_fallback (i : nat) : ImageDescription :=
  {| img_index := i;
     img_description_fr := "Description non disponible";
     img_description_en := "Description not available" |}.

(** [for i, image in enumerate(images)] of [_add_image_descriptions]. *)
Fixpoint describe_images (generate : Image -> exc string)
    (translate : string -> exc string) (i : nat) (images : list Image)
  : list ImageDescription :=
  match images with
  | [] => []
  | image :: rest =>
    catch
      (description ← generate image;
       english ← translate description;
       mret {| img_index := i;
               img_description_fr := description;
               img_description_en := english |})
      (fun _ => image_fallback i)
    :: describe_images generate translate (S i) rest
  end.

(** [for i, table in enumerate(tables)] of [_analyze_tables]. *)
Fixpoint analyze_each (analyze : Table -> nat -> exc TableAnalysis) (i : nat)
    (tables : list Table) : list TableAnalysis :=
  match tables with
  | [] => []
  | table :: rest =>
    catch (analyze table i) (fun e => TableError i e "unknown")
    :: analyze_each analyze (S i) rest
  end.

(** [for match in matches] of [_enrich_formulas]: the handler of the
    item-level [try] only logs a warning. *)
Fixpoint enrich_matches (enrich : string -> exc FormulaInfo) (matches : list Match)
  : list FormulaEnrichment :=
  match matches with
  | [] => []
  | m :: rest =>
    let formula_text := group m in
    match enrich formula_text with
    | Ok enriched =>
      {| fe_original := formula_text; fe_enriched := enriched; fe_position := span m |}
      :: enrich_matches enrich rest
    | Raise _ => enrich_matches enrich rest
    end
  end.

End ItemLoops.

Definition math_patterns : list string :=
  [ "\$[^$]+\$";
    "\\\[[^\]]+\\\]";
    "\\\([^)]+\\\)";
    "[a-zA-Z]\s*[=<>]\s*[a-zA-Z0-9+\-*/^()]+";
    "[0-9]+\s*[+\-*/]\s*[0-9]+" ].

(** *** The stages and the orchestrator *)

Section Stages.

Context {Image : Type}.

(** The captioning pipeline on one image ([to_pil], the processor,
    [generate] and [decode]): a caption, or an exception. *)
Variable caption_model : Image -> exc string.

(** [re.finditer(pattern, content)], as the list of its matches. *)
Variable finditer : string -> string -> list Match.

Definition _generate_image_description (image : Image) : string :=
  catch
    (caption ← caption_model image;
     mret (_translate_to_french caption))
    (fun _ => "Image avec contenu visuel").

(** The body of the [try] block of [_add_image_descriptions]. *)
Definition _add_image_descriptions_try (self : Handler) (result : ConversionResult Image)
    (enhanced_result : Aggregate) : exc Aggregate :=
     if negb (image_model_loaded self) then Ok enhanced_result
     else
       images ← attr_or [] (images (document result));
       let image_descriptions :=
         describe_images (fun image => Ok (_generate_image_description image))
                         (fun description => Ok (_translate_to_english description))
                         0 images in
       mret (<["image_descriptions" := VImageDescriptions image_descriptions]>
             enhanced_result).

Definition _add_image_descriptions (self : Handler) (result : ConversionResult Image)
    (enhanced_result : Aggregate) : Aggregate :=
  catch (_add_image_descriptions_try self result enhanced_result)
        (fun _ => enhanced_result).

(** The body of the [try] block of [_enrich_formulas]. *)
Definition _enrich_formulas_try (self : Handler) (result : ConversionResult Image)
    (enhanced_result : Aggregate) : exc Aggregate :=
     if negb (formula_model_loaded self) then Ok enhanced_result
     else
       v ← getitem enhanced_result "content";
       content ← as_str v;
       let enriched_formulas :=
         flat_map (fun pattern =>
                     enrich_matches (fun formula_text => Ok (_enrich_single_formula formula_text))
                                    (finditer pattern content))
                  math_patterns in
       mret (<["formula_enrichments" := VFormulaEnrichments enriched_formulas]>
             enhanced_result).

Definition _enrich_formulas (self : Handler) (result : ConversionResult Image)
    (enhanced_result : Aggregate) : Aggregate :=
  catch (_enrich_formulas_try self result enhanced_result) (fun _ => enhanced_result).

(** The body of the [try] block of [_analyze_tables]. *)
Definition _analyze_tables_try (result : ConversionResult Image)
    (enhanced_result : Aggregate) : exc Aggregate :=
  tables ← attr_or [] (tables (document result));
  let table_analysis :=
    analyze_each (fun table i => Ok (_analyze_single_table table i)) 0 tables in
  mret (<["table_analysis" := VTableAnalysis table_analysis]> enhanced_result).

Definition _analyze_tables (result : ConversionResult Image)
    (enhanced_result : Aggregate) : Aggregate :=
  catch (_analyze_tables_try result enhanced_result) (fun _ => enhanced_result).

(** The body of the [try] block of [_analyze_document_structure]. *)
Definition _analyze_document_structure_try (result : ConversionResult Image)
    (enhanced_result : Aggregate) : exc Aggregate :=
  elements ← attr_or [] (elements (document result));
  let structure := foldl bucket_element empty_structure elements in
  mret (<["document_structure" := VDocumentStructure structure]> enhanced_result).

Definition _analyze_document_structure (result : ConversionResult Image)
    (enhanced_result : Aggregate) : Aggregate :=
  catch (_analyze_document_structure_try result enhanced_result)
        (fun _ => enhanced_result).

(** The conversion engine and the model loaders: building the
    [DocumentConverter], loading the captioning and the formula model, and
    [converter.convert(file_path)], whose outcome depends on the
    converter's configuration. *)
Variable new_converter : exc Converter.
Variable load_image_model : exc unit.
Variable load_formula_model : exc unit.
Variable convert_file : Converter -> string -> exc (ConversionResult Image).

Definition _initialize_image_model (self : Handler) : Handler :=
  catch
    (_ ← load_image_model;
     mret {| converter := converter self;
             model_loaded := model_loaded self;
             image_model_loaded := true;
             formula_model_loaded := formula_model_loaded self |})
    (fun _ => self).

Definition _initialize_formula_model (self : Handler) : Handler :=
  catch
    (_ ← load_formula_model;
     mret {| converter := converter self;
             model_loaded := model_loaded self;
             image_model_loaded := image_model_loaded self;
             formula_model_loaded := true |})
    (fun _ => self).

(** [initialize] re-raises what the construction of the converter raises;
    the two model loaders never raise. *)
Definition initialize (self : Handler) : Handler * exc unit :=
  match new_converter with
  | Raise e => (self, Raise e)
  | Ok c =>
    let self := {| converter := Some c;
                   model_loaded := model_loaded self;
                   image_model_loaded := image_model_loaded self;
                   formula_model_loaded := formula_model_loaded self |} in
    let self := _initialize_image_model self in
    let self := _initialize_formula_model self in
    ({| converter := converter self;
        model_loaded := true;
        image_model_loaded := image_model_loaded self;
        formula_model_loaded := formula_model_loaded self |}, Ok ())
  end.

Definition is_ready (self : Handler) : Handler * bool :=
  if negb (model_loaded self) then
    match initialize self with
    | (self, Raise _) => (self, false)
    | (self, Ok _) => (self, model_loaded self && bool_decide (is_Some (converter self)))
    end
  else (self, model_loaded self && bool_decide (is_Some (converter self))).

(** Every format option that has [ocr_params] gets the new languages. *)
Definition _update_ocr_languages (self : Handler) (languages : list string) : Handler :=
  match converter self with
  | Some {| format_options := Some options |} =>
    {| converter := Some {| format_options := Some (
         (fun format_option =>
            match ocr_params format_option with
            | Some _ => {| ocr_params := Some languages |}
            | None => format_option
            end) <$> options) |};
       model_loaded := model_loaded self;
       image_model_loaded := image_model_loaded self;
       formula_model_loaded := formula_model_loaded self |}
  | _ => self
  end.

(** [enhanced_result["metadata"]["features_used"].append(name)] *)
Definition use_feature (name : string) (enhanced_result : Aggregate) : exc Aggregate :=
  v ← getitem enhanced_result "metadata";
  match v with
  | VMetadata m =>
    Ok (<["metadata" := VMetadata {| file_path := file_path m;
                                     processing_time := processing_time m;
                                     features_used := features_used m ++ [name] |}]>
        enhanced_result)
  | _ => Raise "TypeError"
  end.

(** [enhanced_result["metadata"]["features_used"]] *)
Definition features_of (enhanced_result : Aggregate) : option (list string) :=
  match enhanced_result !! "metadata" with
  | Some (VMetadata m) => Some (features_used m)
  | _ => None
  end.

(** The enhanced processing of [convert_document], from the construction
    of [enhanced_result] to its return. *)
Definition enhanced_processing (self : Handler) (req : Request)
    (result : ConversionResult Image) (content : string) : exc Aggregate :=
  let enhanced_result : Aggregate :=
    <["metadata" := VMetadata {| file_path := req_file_path req;
                                 processing_time := None;
                                 features_used := [] |}]>
    (<["output_format" := VStr (output_format req)]>
    (<["content" := VStr content]> ∅)) in
  enhanced_result ←
    (if include_images req && include_image_descriptions req && image_model_loaded self
     then use_feature "image_descriptions"
            (_add_image_descriptions self result enhanced_result)
     else Ok enhanced_result);
  enhanced_result ←
    (if include_formula_enrichment req && formula_model_loaded self
     then use_feature "formula_enrichment" (_enrich_formulas self result enhanced_result)
     else Ok enhanced_result);
  enhanced_result ←
    (if include_tables req
     then use_feature "table_analysis" (_analyze_tables result enhanced_result)
     else Ok enhanced_result);
  enhanced_result ←
    (if enhance_content req
     then use_feature "content_enhancement" (_enhance_content enhanced_result)
     else Ok enhanced_result);
  use_feature "structure_analysis" (_analyze_document_structure result enhanced_result).

(** [if ocr_languages:] holds for a non-empty list. *)
Definition given_languages (req : Request) : option (list string) :=
  match ocr_languages req with
  | Some (l :: ls) => Some (l :: ls)
  | _ => None
  end.

(** [convert_document]: the handler after the call, and the enriched
    result or the exception that reaches the caller. *)
Definition convert_document (self : Handler) (req : Request) : Handler * exc Aggregate :=
  let (self, ready) := is_ready self in
  if negb ready then (self, Raise "Docling handler is not ready")
  else
    let self :=
      match given_languages req with
      | Some languages => _update_ocr_languages self languages
      | None => self
      end in
    (self,
     match converter self with
     | None => Raise "AttributeError"
     | Some c =>
       result ← convert_file c (req_file_path req);
       content ←
         (if String.eqb (Py.lower (output_format req)) "html"
          then export_to_html (document result)
          else export_to_markdown (document result));
       enhanced_processing self req result content
     end).

End Stages.

(** *** The remaining methods of the class *)

(** [pieces[0]] and [pieces[-1]] of the result of a [split], which is
    never empty. *)
Definition first_piece (pieces : list string) : string := default "" (head pieces).
Definition last_piece (pieces : list string) : string := default "" (last pieces).

Definition content_type_map : list (string * string) :=
  [ ("application/pdf", "pdf");
    ("application/msword", "doc");
    ("application/vnd.openxmlformats-officedocument.wordprocessingml.document", "docx");
    ("text/plain", "txt");
    ("text/html", "html");
    ("image/jpeg", "jpg");
    ("image/png", "png");
    ("image/tiff", "tiff") ].

(** [mapping.get(key, default)] on a dict written as the list of its items. *)
Fixpoint dict_get (mapping : list (string * string)) (key default : string) : string :=
  match mapping with
  | [] => default
  | (k, v) :: rest => if String.eqb k key then v else dict_get rest key default
  end.

Definition _get_file_extension (url content_type : string) : string :=
  let url_path := first_piece (Py.split "?" url) in
  if Py.contains "." url_path
  then Py.lower (last_piece (Py.split "." url_path))
  else dict_get content_type_map (Py.lower content_type) "pdf".

(** [cleanup]: the converter is dropped; the flags are left as they are.
    Emptying the CUDA cache touches nothing of the handler, and an
    exception it raises is caught. *)
Definition cleanup (self : Handler) : Handler :=
  {| converter := None;
     model_loaded := model_loaded self;
     image_model_loaded := image_model_loaded self;
     formula_model_loaded := formula_model_loaded self |}.

(** The dictionary of [get_model_info]; the dictionaries in it are lists
    of items in their order. *)
Record ModelInfo : Type := {
  available_models : list string;
  default_model : string;
  device : string;
  gpu_available : bool;
  mi_model_loaded : bool;
  mi_image_model_loaded : bool;
  mi_formula_model_loaded : bool;
  supported_ocr_languages : list (string * string);
  features : list (string * bool) }.

(** [cuda] is [torch.cuda.is_available()] as [__init__] read it into
    [self.gpu_available] and [self.device]. *)
Definition get_model_info (cuda : bool) (self : Handler) : ModelInfo :=
  {| available_models := ["granite-docling-1.5b"; "granite-docling-3b"];
     default_model := "granite-docling-1.5b";
     device := if cuda then "cuda" else "cpu";
     gpu_available := cuda;
     supported_ocr_languages :=
       [ ("fr", "French"); ("en", "English"); ("de", "German"); ("es", "Spanish");
         ("it", "Italian"); ("pt", "Portuguese"); ("nl", "Dutch"); ("ru", "Russian");
         ("zh", "Chinese"); ("ja", "Japanese"); ("ko", "Korean") ];
     mi_model_loaded := model_loaded self;
     mi_image_model_loaded := image_model_loaded self;
     mi_formula_model_loaded := formula_model_loaded self;
     features :=
       [ ("image_descriptions", image_model_loaded self);
         ("formula_enrichment", formula_model_loaded self);
         ("table_analysis", true);
         ("content_enhancement", true);
         ("structure_analysis", true);
         ("multi_language_ocr", true) ] |}.

(** The instance [DoclingHandler()] builds. *)
Definition __init__ : Handler :=
  {| converter := None;
     model_loaded := false;
     image_model_loaded := false;
     formula_model_loaded := false |}.

(** *** Conversion from a URL *)

(** The response of [requests.get(url, stream=True)], as the handler uses
    it: [raise_for_status()], [headers.get('content-type')], and the
    chunks [iter_content] yields, after which the iteration ends or
    raises. *)
Record HttpResponse : Type := {
  raise_for_status : exc unit;
  content_type_header : option string;
  chunks : list string;
  interrupted : option string }.

(** The temporary files, by path, with their content. *)
Abbreviation Files := (gmap string string).

(** [NamedTemporaryFile(delete=False, suffix=suffix)]: the path of the file
    it creates, or the exception of its creation. The file is named by
    the directory of the temporary files, a fresh name and the suffix: a
    suffix that holds a slash names a file in a directory that does not
    exist, and the creation raises [FileNotFoundError], whose message
    names the path and is indicative here. With any other suffix creating
    the file and writing to it are taken to succeed; [temp_name] is the
    path picked, given the files that exist and the suffix. *)
Definition named_temporary_file (temp_name : Files -> string -> string)
    (files : Files) (suffix : string) : exc string :=
  if Py.contains "/" suffix
  then Raise "[Errno 2] No such file or directory"
  else Ok (temp_name files suffix).

Section Remote.

Context {Image : Type}.
Variable caption_model : Image -> exc string.
Variable finditer : string -> string -> list Match.
Variable new_converter : exc Converter.
Variable load_image_model : exc unit.
Variable load_formula_model : exc unit.

(** [converter.convert(file_path)] reads the file: its outcome depends on
    the files, the converter's configuration and the path. *)
Variable engine : Files -> Converter -> string -> exc (ConversionResult Image).

(** [requests.get]. *)
Variable http_get : string -> exc HttpResponse.

(** The name [NamedTemporaryFile(delete=False, suffix=...)] picks, given
    the files that exist and the suffix. *)
Variable temp_name : Files -> string -> string.

(** [convert_from_url]: the handler and the files after the call, and the
    result or the exception, which is logged and raised again. *)
Definition convert_from_url (self : Handler) (files : Files)
    (url output_format : string) (include_images include_tables : bool)
  : Handler * Files * exc Aggregate :=
  match (response ← http_get url; _ ← raise_for_status response; mret response) with
  | Raise e => (self, files, Raise e)
  | Ok response =>
    let file_extension :=
      _get_file_extension url (default "" (content_type_header response)) in
    match named_temporary_file temp_name files ("." +:+ file_extension) with
    | Raise e => (self, files, Raise e)
    | Ok temp_file_path =>
      match interrupted response with
      | Some e =>
        (self, <[temp_file_path := String.concat "" (chunks response)]> files, Raise e)
      | None =>
        let files := <[temp_file_path := String.concat "" (chunks response)]> files in
        let (self, result) :=
          convert_document caption_model finditer new_converter load_image_model
            load_formula_model (engine files) self
            {| req_file_path := temp_file_path;
               output_format := output_format;
               include_images := include_images;
               include_tables := include_tables;
               include_image_descriptions := true;
               include_formula_enrichment := true;
               ocr_languages := None;
               enhance_content := true |} in
        (self, delete temp_file_path files, result)
      end
    end
  end.

End Remote.

End DoclingHandler.

(** ** The serverless entry point (handler.py) *)

Module Serverless.

Import DoclingHandler.

(** The values of an event: what [json] decodes. A dict is the list of
    its items in insertion order, without repeated keys. The messages of
    the exceptions the interpreter raises are indicative: their text
    depends on its version. *)
#[warning="-register-all"]
Inductive Json : Type :=
| JNull
| JBool (b : bool)
| JInt (z : Z)
| JFloat (f : float)
| JStr (s : string)
| JList (l : list Json)
| JDict (items : list (string * Json)).

(** [bool(v)] *)
Definition truthy (v : Json) : bool :=
  match v with
  | JNull => false
  | JBool b => b
  | JInt z => negb (Z.eqb z 0)
  | JFloat f => negb (PrimFloat.eqb f 0)
  | JStr s => negb (String.eqb s "")
  | JList l => match l with [] => false | _ => true end
  | JDict items => match items with [] => false | _ => true end
  end.

Fixpoint lookup_item (items : list (string * Json)) (key : string) : option Json :=
  match items with
  | [] => None
  | (k, v) :: rest => if String.eqb k key then Some v else lookup_item rest key
  end.

(** [key in v] for a [str] key: a key of a dict, an element of a list, a
    substring of a string; the other values are not iterable. *)
Definition contains_key (key : string) (v : Json) : exc bool :=
  match v with
  | JDict items => Ok (bool_decide (is_Some (lookup_item items key)))
  | JList l =>
    Ok (existsb (fun x => match x with JStr s => String.eqb s key | _ => false end) l)
  | JStr s => Ok (Py.contains key s)
  | _ => Raise "TypeError: argument is not iterable"
  end.

(** [v[key]] for a [str] key; [str(KeyError(key))] is the key in quotes. *)
Definition subscript (v : Json) (key : string) : exc Json :=
  match v with
  | JDict items =>
    match lookup_item items key with
    | Some x => Ok x
    | None => Raise ("'" +:+ key +:+ "'")
    end
  | JStr _ => Raise "string indices must be integers"
  | JList _ => Raise "list indices must be integers or slices, not str"
  | _ => Raise "object is not subscriptable"
  end.

(** [v.get(key, default)]: only a dict has the method. *)
Definition get (v : Json) (key : string) (default : Json) : exc Json :=
  match v with
  | JDict items => Ok (from_option id default (lookup_item items key))
  | _ => Raise "object has no attribute 'get'"
  end.

(** The use of a value as a [str]. *)
Definition json_str (v : Json) : exc string :=
  match v with
  | JStr s => Ok s
  | _ => Raise "object has no attribute 'split'"
  end.

(** [for i, doc in enumerate(v)]: the elements of a list, the characters
    of a string, the keys of a dict. *)
Definition iterate (v : Json) : exc (list Json) :=
  match v with
  | JList l => Ok l
  | JStr s => Ok ((fun c => JStr (String c "")) <$> list_ascii_of_string s)
  | JDict items => Ok ((fun kv => JStr kv.1) <$> items)
  | _ => Raise "object is not iterable"
  end.

(** The languages a value stands for where [convert_document] expects
    them: a value that is false stands for none given, a list of strings
    for itself; [convert_document] is not modelled on any other value. *)
Definition languages_of (v : Json) : option (option (list string)) :=
  if truthy v then
    match v with
    | JList l =>
      Some <$> mapM (fun x => match x with JStr s => Some s | _ => None end) l
    | _ => None
    end
  else Some None.

(** The state of the module: the global [docling_handler] and the
    temporary files. *)
Record World : Type := {
  docling_handler : option Handler;
  temp_files : Files }.

(** The response of a successful conversion. A key missing from the
    result is replaced by [[]] or [{}]; [None] stands for [{}]. *)
Record Converted : Type := {
  c_content : Value;
  c_output_format : string;
  c_source : string;
  c_origin : string * Json;
  c_enhanced_features : list string;
  c_image_descriptions : Value;
  c_formula_enrichments : Value;
  c_table_analysis : Value;
  c_content_enhancement : option Value;
  c_document_structure : option Value;
  c_metadata : option Value }.

Record InfoResponse : Type := {
  model_info : ModelInfo;
  available_features : list string;
  supported_input : list string;
  supported_output : list string;
  supported_ocr : list string;
  supported_descriptions : list string }.

(** An entry of the results of a batch: [{"index", "result"}], or
    [{"index", "error", "success": False}]. *)
Inductive Entry (R : Type) : Type :=
| EntryResult (index : nat) (result : R)
| EntryError (index : nat) (error : string).
Arguments EntryResult {R} index result.
Arguments EntryError {R} index error.

(** The responses: [{"error", "success": False}], or one of the three
    dicts with ["success": True]. *)
#[warning="-register-all"]
Inductive Response : Type :=
| Failure (error : string)
| Conversion (c : Converted)
| Info (i : InfoResponse)
| BatchResponse (results : list (Entry Response))
                (total_documents successful_conversions : nat).

(** [response["success"]] *)
Definition success (r : Response) : bool :=
  match r with
  | Failure _ => false
  | _ => true
  end.

(** [r.get("result", {}).get("success", False)] on an entry. *)
Definition entry_success (e : Entry Response) : bool :=
  match e with
  | EntryResult _ r => success r
  | EntryError _ _ => false
  end.

(** The parameters [convert_from_url] declares, and the keywords
    [handle_url_conversion] passes to it. *)
Definition convert_from_url_parameters : list string :=
  ["url"; "output_format"; "include_images"; "include_tables"].

Definition handle_url_conversion_keywords : list string :=
  ["url"; "output_format"; "include_images"; "include_tables";
   "include_image_descriptions"; "include_formula_enrichment";
   "ocr_languages"; "enhance_content"].

(** The binding of keyword arguments by a function without [**kwargs]:
    the first keyword that is no parameter raises TypeError. *)
Definition bind_keywords (parameters keywords : list string) : exc unit :=
  match filter (fun k => k ∉ parameters) keywords with
  | [] => Ok ()
  | k :: _ => Raise ("got an unexpected keyword argument '" +:+ k +:+ "'")
  end.

(** [result.get("metadata", {}).get("features_used", [])] *)
Definition enhanced_features_of (result : Aggregate) : exc (list string) :=
  match result !! "metadata" with
  | None => Ok []
  | Some (VMetadata m) => Ok (features_used m)
  | Some _ => Raise "object has no attribute 'get'"
  end.

Definition success_response (result : Aggregate) (output_format source : string)
    (origin : string * Json) : exc Response :=
  enhanced_features ← enhanced_features_of result;
  mret (Conversion
    {| c_content := default (VStr "") (result !! "content");
       c_output_format := output_format;
       c_source := source;
       c_origin := origin;
       c_enhanced_features := enhanced_features;
       c_image_descriptions :=
         default (VImageDescriptions []) (result !! "image_descriptions");
       c_formula_enrichments :=
         default (VFormulaEnrichments []) (result !! "formula_enrichments");
       c_table_analysis := default (VTableAnalysis []) (result !! "table_analysis");
       c_content_enhancement := result !! "content_enhancement";
       c_document_structure := result !! "document_structure";
       c_metadata := result !! "metadata" |}).

Section Handlers.

Context {Image : Type}.
Variable caption_model : Image -> exc string.
Variable finditer : string -> string -> list Match.
Variable new_converter : exc Converter.
Variable load_image_model : exc unit.
Variable load_formula_model : exc unit.
Variable engine : Files -> Converter -> string -> exc (ConversionResult Image).
Variable temp_name : Files -> string -> string.

(** [torch.cuda.is_available()] and [base64.b64decode]. *)
Variable cuda : bool.
Variable b64decode : Json -> exc string.

(** [docling_handler.method]: the global may still be [None]. *)
Definition the_handler (w : World) : exc Handler :=
  match docling_handler w with
  | Some self => Ok self
  | None => Raise "'NoneType' object has no attribute"
  end.

Definition initialize_handler (w : World) : World * exc unit :=
  match docling_handler w with
  | Some _ => (w, Ok ())
  | None =>
    let (self, outcome) :=
      initialize new_converter load_image_model load_formula_model __init__ in
    ({| docling_handler := Some self; temp_files := temp_files w |}, outcome)
  end.

(** What [handle_url_conversion] does once its call of
    [convert_from_url] has bound its arguments: the state of the module
    and the response it ends with. *)
Variable after_binding : World -> Json -> World * Response.

(** [handle_url_conversion], up to the binding of the keywords of its
    call of [convert_from_url]. *)
Definition handle_url_conversion (w : World) (input_data : Json) : World * Response :=
  match (document_url ← subscript input_data "document_url";
         self ← the_handler w;
         bind_keywords convert_from_url_parameters handle_url_conversion_keywords) with
  | Ok _ => after_binding w input_data
  | Raise e => (w, Failure e)
  end.

(** The arguments of [convert_document] as [handle_base64_conversion]
    reads them from the input, when they are of the types
    [convert_document] is modelled on: a string for the output format and
    a list of strings, or a value that is false, for the languages. *)
Definition typed_request (file_path : string) (input_data : Json) : option Request :=
  match get input_data "output_format" (JStr "markdown"),
        get input_data "include_images" (JBool true),
        get input_data "include_tables" (JBool true),
        get input_data "include_image_descriptions" (JBool true),
        get input_data "include_formula_enrichment" (JBool true),
        get input_data "ocr_languages" (JList [JStr "fra"; JStr "eng"]),
        get input_data "enhance_content" (JBool true) with
  | Ok (JStr output_format), Ok images, Ok tables, Ok descriptions, Ok formulas,
    Ok languages, Ok enhance =>
    languages ← languages_of languages;
    Some {| req_file_path := file_path;
            output_format := output_format;
            include_images := truthy images;
            include_tables := truthy tables;
            include_image_descriptions := truthy descriptions;
            include_formula_enrichment := truthy formulas;
            ocr_languages := languages;
            enhance_content := truthy enhance |}
  | _, _, _, _, _, _, _ => None
  end.

(** [handle_base64_conversion]: the state of the module after the call
    and the response; [None] when the conversion is reached with
    arguments [convert_document] is not modelled on. *)
Definition handle_base64_conversion (w : World) (input_data : Json)
  : option (World * Response) :=
  match (document_base64 ← subscript input_data "document_base64";
         filename ← get input_data "filename" (JStr "document.pdf");
         document_data ← b64decode document_base64;
         name ← json_str filename;
         mret (document_data, name)) with
  | Raise e => Some (w, Failure e)
  | Ok (document_data, filename) =>
    match named_temporary_file temp_name (temp_files w)
            ("." +:+ last_piece (Py.split "." filename)) with
    | Raise e => Some (w, Failure e)
    | Ok temp_file_path =>
      let files := <[temp_file_path := document_data]> (temp_files w) in
      match docling_handler w with
      | None =>
        Some ({| docling_handler := None; temp_files := delete temp_file_path files |},
              Failure "'NoneType' object has no attribute 'convert_document'")
      | Some self =>
        req ← typed_request temp_file_path input_data;
        let (self, result) :=
          convert_document caption_model finditer new_converter load_image_model
            load_formula_model (engine files) self req in
        Some ({| docling_handler := Some self;
                 temp_files := delete temp_file_path files |},
              catch (result ← result;
                     success_response result (output_format req) "base64"
                                      ("filename", JStr filename))
                    Failure)
      end
    end
  end.

Definition handle_model_info_request (w : World) : Response :=
  catch
    (self ← the_handler w;
     mret (Info
       {| model_info := get_model_info cuda self;
          available_features :=
            [ "image_descriptions_fr"; "formula_enrichment"; "table_analysis";
              "content_enhancement"; "structure_analysis"; "multi_language_ocr";
              "batch_processing" ];
          supported_input :=
            ["pdf"; "docx"; "doc"; "txt"; "html"; "png"; "jpg"; "jpeg"; "tiff"];
          supported_output := ["markdown"; "html"];
          supported_ocr :=
            ["fra"; "eng"; "deu"; "spa"; "ita"; "por"; "nld"; "rus"; "chi"; "jpn"; "kor"];
          supported_descriptions := ["fr"; "en"] |}))
    Failure.

(** One turn of the loop of [handle_batch_conversion], with its [try]. *)
Definition convert_one (w : World) (i : nat) (doc output_format include_images
    include_tables : Json) : option (World * Entry Response) :=
  let options :=
    [ ("output_format", output_format); ("include_images", include_images);
      ("include_tables", include_tables) ] in
  match contains_key "url" doc with
  | Raise e => Some (w, EntryError i e)
  | Ok true =>
    match subscript doc "url" with
    | Raise e => Some (w, EntryError i e)
    | Ok url =>
      let (w, result) :=
        handle_url_conversion w (JDict (("document_url", url) :: options)) in
      Some (w, EntryResult i result)
    end
  | Ok false =>
    match contains_key "base64" doc with
    | Raise e => Some (w, EntryError i e)
    | Ok true =>
      match (data ← subscript doc "base64";
             filename ← get doc "filename"
                            (JStr ("document_" +:+ Py.str_of_nat i +:+ ".pdf"));
             mret (data, filename)) with
      | Raise e => Some (w, EntryError i e)
      | Ok (data, filename) =>
        '(w, result) ← handle_base64_conversion w
            (JDict (("document_base64", data) :: ("filename", filename) :: options));
        Some (w, EntryResult i result)
      end
    | Ok false =>
      Some (w, EntryResult i
                 (Failure "Document must have either 'url' or 'base64' field"))
    end
  end.

Fixpoint convert_each (w : World) (i : nat) (documents : list Json)
    (output_format include_images include_tables : Json)
  : option (World * list (Entry Response)) :=
  match documents with
  | [] => Some (w, [])
  | doc :: rest =>
    '(w, entry) ← convert_one w i doc output_format include_images include_tables;
    '(w, entries) ← convert_each w (S i) rest output_format include_images include_tables;
    Some (w, entry :: entries)
  end.

Definition handle_batch_conversion (w : World) (input_data : Json)
  : option (World * Response) :=
  match (documents ← get input_data "documents" (JList []);
         output_format ← get input_data "output_format" (JStr "markdown");
         include_images ← get input_data "include_images" (JBool true);
         include_tables ← get input_data "include_tables" (JBool true);
         mret (documents, output_format, include_images, include_tables)) with
  | Raise e => Some (w, Failure e)
  | Ok (documents, output_format, include_images, include_tables) =>
    if negb (truthy documents) then Some (w, Failure "No documents provided in batch")
    else
      match iterate documents with
      | Raise e => Some (w, Failure e)
      | Ok docs =>
        '(w, results) ← convert_each w 0 docs output_format include_images include_tables;
        Some (w, BatchResponse results (length docs)
                   (length (filter (fun r => entry_success r = true) results)))
      end
  end.

(** [handler(event)] *)
Definition handler (w : World) (event : Json) : option (World * Response) :=
  let (w, outcome) := initialize_handler w in
  match (_ ← outcome; get event "input" (JDict [])) with
  | Raise e => Some (w, Failure e)
  | Ok input_data =>
    if negb (truthy input_data) then Some (w, Failure "No input data provided")
    else
      match contains_key "document_url" input_data with
      | Raise e => Some (w, Failure e)
      | Ok true => Some (handle_url_conversion w input_data)
      | Ok false =>
        match contains_key "document_base64" input_data with
        | Raise e => Some (w, Failure e)
        | Ok true => handle_base64_conversion w input_data
        | Ok false =>
          match contains_key "get_model_info" input_data with
          | Raise e => Some (w, Failure e)
          | Ok true => Some (w, handle_model_info_request w)
          | Ok false =>
            Some (w, Failure
              "Either 'document_url', 'document_base64', or 'get_model_info' must be provided")
          end
        end
      end
  end.

End Handlers.

End Serverless.

Import DoclingHandler.

(** ** Vocabulary of the statements *)

(** [after] is [before], or [before] with [key] written. *)
Definition writes_only (key : string) (before after : Aggregate) : Prop :=
  after = before \/ exists v, after = <[key := v]> before.

(** The frame of a stage with the [try] block [body]: every key but [key]
    is returned as it was passed in; when the block raises, the dictionary
    is returned unchanged; when it returns, its result is returned, which
    is the dictionary unchanged or with [key] written. *)
Definition stage_frame (key : string) (body : Aggregate -> exc Aggregate)
    (stage : Aggregate -> Aggregate) : Prop :=
  forall enhanced_result : Aggregate,
    (forall k, k <> key -> stage enhanced_result !! k = enhanced_result !! k) /\
    (raises (body enhanced_result) -> stage enhanced_result = enhanced_result) /\
    (forall r, body enhanced_result = Ok r ->
       stage enhanced_result = r /\ writes_only key enhanced_result r).

(** The stages whose guard in [convert_document] holds, in the order of
    the calls: image descriptions need [include_images],
    [include_image_descriptions] and the loaded captioning model; formula
    enrichment needs its flag and the loaded formula model; table analysis
    and content enhancement need their flag; structure analysis has no
    guard. *)
Definition gated_stages (self : Handler) (req : Request) : list string :=
  ((if include_images req && include_image_descriptions req && image_model_loaded self
    then ["image_descriptions"] else []) ++
   (if include_formula_enrichment req && formula_model_loaded self
    then ["formula_enrichment"] else []) ++
   (if include_tables req then ["table_analysis"] else []) ++
   (if enhance_content req then ["content_enhancement"] else []) ++
   ["structure_analysis"])%list.

(** The record of an image whose caption could not be generated. *)
Definition undescribed (i : nat) : ImageDescription :=
  {| img_index := i;
     img_description_fr := "Image avec contenu visuel";
     img_description_en := "Image avec contenu visuel" |}.

(** The record the formula loop appends for a match whose enrichment
    returned, if it did. *)
Definition enrichment_record (enrich : string -> exc FormulaInfo) (m : Match)
  : option FormulaEnrichment :=
  match enrich (group m) with
  | Ok enriched =>
    Some {| fe_original := group m; fe_enriched := enriched; fe_position := span m |}
  | Raise _ => None
  end.

(** [Without old s t]: [t] is [s] with the occurrences of [old] left out,
    as a reader of [s] from left to right finds them: where [old] starts,
    it is passed over and the reading goes on behind it; elsewhere the
    character read is kept. *)
Inductive Without (old : string) : string -> string -> Prop :=
| without_end : Without old "" ""
| without_skip (rest t : string) :
    Without old rest t -> Without old (old +:+ rest) t
| without_keep (c : ascii) (s t : string) :
    (forall rest, String c s <> old +:+ rest) ->
    Without old s t -> Without old (String c s) (String c t).

(** [clean] is [formula] stripped of its delimiters: the dollar signs are
    left out, then the opening and the closing bracket and the opening and
    the closing parenthesis that a backslash precedes, in this order. *)
Definition Stripped (formula clean : string) : Prop :=
  exists a b c d,
    Without "$" formula a /\ Without "\[" a b /\ Without "\]" b c /\
    Without "\(" c d /\ Without "\)" d clean.

(** ** Sample inputs *)

Module Sample.

(** A handler with both models loaded. *)
Definition loaded : Handler :=
  {| converter := Some {| format_options := None |};
     model_loaded := true;
     image_model_loaded := true;
     formula_model_loaded := true |}.

(** A request with every flag set. *)
Definition all_features : Request :=
  {| req_file_path := "report.pdf";
     output_format := "markdown";
     include_images := true;
     include_tables := true;
     include_image_descriptions := true;
     include_formula_enrichment := true;
     ocr_languages := None;
     enhance_content := true |}.

(** A document whose [images] attribute cannot be iterated. *)
Definition broken_images : ConversionResult nat :=
  {| document :=
       {| export_to_html := Ok "<p>text</p>";
          export_to_markdown := Ok "text";
          images := Unusable "TypeError: 'NoneType' object is not iterable";
          tables := Present [];
          elements := Present [] |} |}.

(** A document with one image. *)
Definition one_image : ConversionResult nat :=
  {| document :=
       {| export_to_html := Ok "<p>text</p>";
          export_to_markdown := Ok "text";
          images := Present [7];
          tables := Present [];
          elements := Present [] |} |}.

(** A captioning model that raises on every image. *)
Definition failing_caption (image : nat) : exc string := Raise "generation error".

(** A regular-expression engine that finds nothing. *)
Definition no_match (pattern content : string) : list Match := [].

End Sample.

(** ** Further vocabulary *)

(** The extensions [_get_file_extension] knows a content type for. *)
Definition known_extensions : list string :=
  ["pdf"; "doc"; "docx"; "txt"; "html"; "jpg"; "png"; "tiff"].

(** ["index"] of an entry of [table_analysis]. *)
Definition table_index (t : TableAnalysis) : nat :=
  match t with
  | Analysed a => ta_index a
  | TableError index _ _ => index
  end.

(** The heading, resp. the list item, an element is bucketed as. *)
Definition heading_of (element : Element) : option Heading :=
  if decide (e_label element = Some "heading")
  then Some {| h_text := default "" (e_text element);
               h_level := default 1%Z (e_level element) |}
  else None.

Definition list_item_of (element : Element) : option ListItem :=
  if decide (e_label element = Some "list")
  then Some {| l_text := default "" (e_text element);
               l_type := default "bullet" (e_list_type element) |}
  else None.

(** ["index"] of an entry of the results of a batch. *)
Definition entry_index {R : Type} (e : Serverless.Entry R) : nat :=
  match e with
  | Serverless.EntryResult index _ => index
  | Serverless.EntryError index _ => index
  end.

(** The keys an enriched result may hold. *)
Definition result_keys : gset string :=
  {[ "content"; "output_format"; "metadata"; "image_descriptions";
     "formula_enrichments"; "table_analysis"; "content_enhancement";
     "document_structure" ]}.

(** The entries [convert_document] builds its result from: the exported
    text, the output format as it was asked for, and the metadata with
    the path of the file and no processing time. *)
Definition base_entries (path format content : string) (r : Aggregate) : Prop :=
  r !! "content" = Some (VStr content) /\
  r !! "output_format" = Some (VStr format) /\
  (exists m, r !! "metadata" = Some (VMetadata m) /\
             file_path m = path /\ processing_time m = None) /\
  dom r ⊆ result_keys.

(** [export_to_html] when the format is "html" in any case, else
    [export_to_markdown]. *)
Definition export_of {Image : Type} (format : string) (result : ConversionResult Image)
  : exc string :=
  if String.eqb (Py.lower format) "html"
  then export_to_html (document result)
  else export_to_markdown (document result).

(** ** Further sample inputs *)

Module Scenario.

Import Serverless.

(** An engine that converts every file to the one-image document, and
    one that raises on every file. *)
Definition converts (c : Converter) (path : string) : exc (ConversionResult nat) :=
  Ok Sample.one_image.
Definition corrupt (c : Converter) (path : string) : exc (ConversionResult nat) :=
  Raise "corrupt file".
Definition reads (files : Files) := converts.

(** A converter with two format options, one with OCR parameters. *)
Definition configured : Handler :=
  {| converter := Some {| format_options :=
       Some [ {| ocr_params := Some ["fra"; "eng"] |}; {| ocr_params := None |} ] |};
     model_loaded := true;
     image_model_loaded := false;
     formula_model_loaded := true |}.

Definition german : Request :=
  {| req_file_path := "brief.pdf";
     output_format := "HTML";
     include_images := true;
     include_tables := false;
     include_image_descriptions := true;
     include_formula_enrichment := false;
     ocr_languages := Some ["deu"];
     enhance_content := false |}.

Definition two_tables : ConversionResult nat :=
  {| document :=
       {| export_to_html := Ok "";
          export_to_markdown := Ok "";
          images := Missing;
          tables := Present [ {| t_rows := Present 2; t_columns := Present 3 |};
                              {| t_rows := Unusable "no len"; t_columns := Missing |} ];
          elements := Present
            [ {| e_label := Some "heading"; e_text := Some "Title";
                 e_level := None; e_list_type := None |};
              {| e_label := Some "paragraph"; e_text := Some "Body";
                 e_level := None; e_list_type := None |};
              {| e_label := Some "list"; e_text := None;
                 e_level := None; e_list_type := Some "numbered" |} ] |} |}.

Definition temp_name (files : Files) (suffix : string) : string := "/tmp/tmp0" +:+ suffix.
Definition b64decode (v : Json) : exc string := Ok "decoded".
Definition after_binding (w : World) (input_data : Json) : World * Response :=
  (w, Failure "not reached").

Definition warm : World :=
  {| docling_handler := Some Sample.loaded; temp_files := ∅ |}.

Definition base64_input : Json :=
  JDict [ ("document_base64", JStr "ZGVjb2RlZA=="); ("filename", JStr "scan.v2.PDF");
          ("include_tables", JBool false) ].

Definition batch_event : Json :=
  JDict [ ("input", JDict [ ("documents", JList [JDict [("url", JStr "http://h/a.pdf")]]) ]) ].

(** A batch of three documents: one by its URL, one by its content, one
    by neither. *)
Definition batch_input : Json :=
  JDict [ ("documents", JList [ JDict [("url", JStr "http://h/a.pdf")];
                                JDict [("base64", JStr "ZGVjb2RlZA==")];
                                JDict [("path", JStr "a.pdf")] ]) ].

(** A server that answers every URL with a PDF in two chunks. *)
Definition downloads (url : string) : exc HttpResponse :=
  Ok {| raise_for_status := Ok ();
        content_type_header := Some "application/pdf";
        chunks := ["%PDF"; "-1.4"];
        interrupted := None |}.

End Scenario.

(** * Properties *)

(** ** Substring search *)

Section Substrings.

Lemma startswith_app (p post : string) : Py.startswith p (p +:+ post) = true.
Proof.
  induction p as [|a p IH]; simpl; [done|].
  by rewrite Ascii.eqb_refl.
Qed.

Lemma startswith_inv (p s : string) :
  Py.startswith p s = true -> exists post, s = p +:+ post.
Proof.
  revert s. induction p as [|a p IH]; intros s H.
  - by exists s.
  - destruct s as [|b s]; simpl in H; [done|].
    destruct (Ascii.eqb_spec a b) as [->|]; [|done].
    destruct (IH _ H) as [post ->]. by exists post.
Qed.

Lemma contains_cons (sub : string) (c : ascii) (s : string) :
  Py.contains sub (String c s) = Py.startswith sub (String c s) || Py.contains sub s.
Proof. done. Qed.

Lemma contains_occurs (sub s : string) : Py.contains sub s = true <-> Py.Occurs sub s.
Proof.
  split.
  - induction s as [|c s IH]; simpl; intros H.
    + rewrite orb_false_r in H. apply startswith_inv in H as [post ->].
      by exists "", post.
    + apply orb_true_iff in H as [H|H].
      * apply startswith_inv in H as [post ->]. by exists "", post.
      * destruct (IH H) as (pre & post & ->). by exists (String c pre), post.
  - intros (pre & post & ->). induction pre as [|c pre IH].
    + simpl. destruct (sub +:+ post) eqn:E; simpl.
      * rewrite <- E, startswith_app. done.
      * rewrite <- E. rewrite startswith_app. done.
    + change (String c pre +:+ sub +:+ post) with (String c (pre +:+ sub +:+ post)).
      rewrite contains_cons, IH. apply orb_true_r.
Qed.

Lemma contains_absent (sub s : string) : Py.contains sub s = false <-> ~ Py.Occurs sub s.
Proof.
  rewrite <- contains_occurs. by destruct (Py.contains sub s).
Qed.

End Substrings.

(** Decides the [Occurs] hypotheses of a goal by running the search. *)
Ltac occurs_to_bool :=
  repeat match goal with
  | H : Py.Occurs _ _ |- _ => apply contains_occurs in H
  | H : ~ Py.Occurs _ _ |- _ => apply contains_absent in H
  | H : _ \/ _ |- _ => destruct H
  | H : ~ (_ \/ _) |- _ => apply Decidable.not_or in H as [? ?]
  end.

(** ** The formula enricher *)

Lemma replace_from_skip (old new p rest : string) :
  Py.replace_from old new (String.length p) (p +:+ rest) = Py.replace_from old new 0 rest.
Proof. induction p as [|a p IH]; [done|]. exact IH. Qed.

Lemma append_length (p s : string) :
  String.length (p +:+ s) = String.length p + String.length s.
Proof. induction p as [|a p IH]; simpl; [done|]. by rewrite IH. Qed.

Lemma append_inj (p s t : string) : p +:+ s = p +:+ t -> s = t.
Proof. induction p as [|a p IH]; simpl; [done|]. intros [= H]. auto. Qed.

Lemma replace_without (old s : string) :
  old <> "" -> Without old s (Py.replace old "" s).
Proof.
  intros Hold. unfold Py.replace. destruct old as [|a old]; [done|]. clear Hold.
  remember (String.length s) as n eqn:Hn.
  assert (Hle : String.length s <= n) by lia. clear Hn.
  revert s Hle. induction n as [|n IH]; intros s Hle.
  - destruct s; [constructor|simpl in Hle; lia].
  - destruct s as [|c s]; [constructor|].
    cbn [Py.replace_from].
    destruct (Py.startswith (String a old) (String c s)) eqn:E.
    + apply startswith_inv in E as [rest E].
      change (String a old +:+ rest) with (String a (old +:+ rest)) in E.
      injection E as -> ->.
      cbn [String.length Nat.sub]. rewrite Nat.sub_0_r.
      change ("" +:+ ?x) with x. rewrite replace_from_skip.
      apply (without_skip (String a old)). apply IH.
      simpl in Hle. rewrite append_length in Hle. lia.
    + apply without_keep.
      * intros rest Hrest. rewrite Hrest, startswith_app in E. done.
      * apply IH. simpl in Hle. lia.
Qed.

Lemma without_unique (old s t t' : string) :
  old <> "" -> Without old s t -> Without old s t' -> t = t'.
Proof.
  intros Hold H. revert t'. induction H as [|rest t H IH|c s t Hc H IH]; intros t' H'.
  - inversion H' as [|rest' ? ? E|]; subst; [done|].
    destruct old; [done|discriminate].
  - remember (old +:+ rest) as s eqn:Es.
    destruct H' as [|rest' t' H'|c s' t' Hc H'].
    + destruct old; [done|discriminate].
    + apply append_inj in Es as ->. by apply IH.
    + by destruct (Hc rest).
  - remember (String c s) as u eqn:Eu.
    destruct H' as [|rest' t' H'|c' s' t' Hc' H'].
    + done.
    + by destruct (Hc rest').
    + injection Eu as -> ->. f_equal. by apply IH.
Qed.

Lemma clean_formula_stripped (formula : string) : Stripped formula (clean_formula formula).
Proof.
  unfold Stripped, clean_formula.
  eexists _, _, _, _. repeat split; apply replace_without; done.
Qed.

Lemma stripped_unique (formula t t' : string) :
  Stripped formula t -> Stripped formula t' -> t = t'.
Proof.
  intros (a & b & c & d & H1 & H2 & H3 & H4 & H5) (a' & b' & c' & d' & G1 & G2 & G3 & G4 & G5).
  assert (a = a') as <- by (eapply without_unique; [|exact H1|exact G1]; done).
  assert (b = b') as <- by (eapply without_unique; [|exact H2|exact G2]; done).
  assert (c = c') as <- by (eapply without_unique; [|exact H3|exact G3]; done).
  assert (d = d') as <- by (eapply without_unique; [|exact H4|exact G4]; done).
  eapply without_unique; [|exact H5|exact G5]; done.
Qed.

(** C4. The type of an enriched formula is decided on the text stripped of
    its delimiters by ordered checks of which the first that holds applies:
    a [+] or a [-] gives "arithmetic"; otherwise an [=] gives "equation";
    otherwise a [^] or a [**] gives "exponential"; otherwise the type is
    "mathematical_expression". In particular "5 + 3", "x = 5", "x^2" and
    "hello" get these four types in this order. The text the checks read,
    [clean], is the formula stripped of its delimiters and no other text:
    the dollar signs left out, then the bracket and parenthesis delimiters;
    it is the text the record holds as its formula. So the four examples
    get their types within delimiters too, "*$*" is an exponential, since
    the stars meet once the dollar sign is gone, and a delimiter that the
    removal of a dollar sign forms is removed in its turn. *)
Theorem formula_type_by_ordered_checks (formula : string) :
  let clean := clean_formula formula in
  let type := fi_type (_enrich_single_formula formula) in
  let signed := Py.Occurs "+" clean \/ Py.Occurs "-" clean in
  let equal := Py.Occurs "=" clean in
  let power := Py.Occurs "^" clean \/ Py.Occurs "**" clean in
  (signed -> type = "arithmetic") /\
  (~ signed -> equal -> type = "equation") /\
  (~ signed -> ~ equal -> power -> type = "exponential") /\
  (~ signed -> ~ equal -> ~ power -> type = "mathematical_expression") /\
  fi_type (_enrich_single_formula "5 + 3") = "arithmetic" /\
  fi_type (_enrich_single_formula "x = 5") = "equation" /\
  fi_type (_enrich_single_formula "x^2") = "exponential" /\
  fi_type (_enrich_single_formula "hello") = "mathematical_expression" /\
  Stripped formula clean /\
  (forall text, Stripped formula text -> text = clean) /\
  fi_formula (_enrich_single_formula formula) = clean /\
  clean_formula "$$x = 5$$" = "x = 5" /\
  clean_formula "\[x^2\]" = "x^2" /\
  clean_formula "\(hello\)" = "hello" /\
  fi_type (_enrich_single_formula "$5 + 3$") = "arithmetic" /\
  fi_type (_enrich_single_formula "$$x = 5$$") = "equation" /\
  fi_type (_enrich_single_formula "\[x^2\]") = "exponential" /\
  fi_type (_enrich_single_formula "\(hello\)") = "mathematical_expression" /\
  fi_type (_enrich_single_formula "*$*") = "exponential" /\
  fi_type (_enrich_single_formula "\$[x]") = "mathematical_expression" /\
  fi_formula (_enrich_single_formula "\$[x]") = "x]".
Proof.
  cbv zeta.
  split; [|split; [|split; [|split]]].
  1-4: unfold _enrich_single_formula, catch; intros; occurs_to_bool;
       repeat match goal with H : Py.contains _ _ = _ |- _ => rewrite H; clear H end;
       simpl; rewrite ?orb_true_r; reflexivity.
  do 4 (split; [reflexivity|]).
  split; [apply clean_formula_stripped|].
  split; [intros text H; exact (stripped_unique _ _ _ H (clean_formula_stripped formula))|].
  split.
  { unfold _enrich_single_formula, catch.
    by repeat match goal with |- context [if ?b then _ else _] => destruct b end. }
  repeat split; reflexivity.
Qed.

(** ** Content statistics *)

(** What [_enhance_content] stores for a textual content. *)
Lemma _enhance_content_text (enhanced_result : Aggregate) (content : string) :
  enhanced_result !! "content" = Some (VStr content) ->
  exists stats,
    _enhance_content enhanced_result =
    <["content_enhancement" :=
       VContentEnhancement
         {| statistics := stats;
            content_type := detect_content_type content;
            language_detected := "fr";
            readability_score := _calculate_readability (VStr content) |}]>
    enhanced_result.
Proof.
  intros H. unfold _enhance_content, _enhance_content_try, getitem. rewrite H. simpl. eauto.
Qed.

(** C5. The content kind is detected by three checks in a fixed order,
    table markers, then image markers, then formula markers, each
    overwriting the kind found before it, so the last check that holds
    wins; a text with markers of the three kinds is a
    "document_with_formulas". *)
Theorem content_kind_last_check_wins (content : string) :
  let kind := detect_content_type content in
  let table_markers :=
    Py.Occurs "table" (Py.lower content) \/ Py.Occurs "|" content in
  let image_markers :=
    Py.Occurs "image" (Py.lower content) \/ Py.Occurs "![image]" content in
  let formula_markers :=
    Py.Occurs "$" content \/ Py.Occurs "\[" content \/ Py.Occurs "\(" content in
  (formula_markers -> kind = "document_with_formulas") /\
  (~ formula_markers -> image_markers -> kind = "document_with_images") /\
  (~ formula_markers -> ~ image_markers -> table_markers ->
   kind = "document_with_tables") /\
  (~ formula_markers -> ~ image_markers -> ~ table_markers -> kind = "document") /\
  (table_markers -> image_markers -> formula_markers ->
   kind = "document_with_formulas") /\
  detect_content_type "a table with | data and an image and $x$"
  = "document_with_formulas" /\
  (forall enhanced_result : Aggregate,
     enhanced_result !! "content" = Some (VStr content) ->
     exists c,
       _enhance_content enhanced_result !! "content_enhancement"
       = Some (VContentEnhancement c) /\ content_type c = kind).
Proof.
  cbv zeta. unfold detect_content_type, existsb.
  assert (Hf : Py.Occurs "$" content \/ Py.Occurs "\[" content \/ Py.Occurs "\(" content ->
               Py.contains "$" content || (Py.contains "\[" content
                 || (Py.contains "\(" content || false)) = true).
  { intros H. occurs_to_bool;
      match goal with H : Py.contains _ _ = _ |- _ => rewrite H end;
      rewrite ?orb_true_r; reflexivity. }
  assert (Hnf : ~ (Py.Occurs "$" content \/ Py.Occurs "\[" content \/ Py.Occurs "\(" content) ->
               Py.contains "$" content || (Py.contains "\[" content
                 || (Py.contains "\(" content || false)) = false).
  { intros H. occurs_to_bool.
    repeat match goal with H : Py.contains _ _ = _ |- _ => rewrite H; clear H end.
    reflexivity. }
  repeat split.
  - intros H. by rewrite (Hf H).
  - intros H Hi. rewrite (Hnf H). clear Hf Hnf H. occurs_to_bool;
      match goal with H : Py.contains _ _ = _ |- _ => rewrite H end;
      rewrite ?orb_true_r; reflexivity.
  - intros H Hi Ht. rewrite (Hnf H). clear Hf Hnf H. occurs_to_bool;
      repeat match goal with H : Py.contains _ _ = _ |- _ => rewrite H; clear H end;
      rewrite ?orb_true_r; reflexivity.
  - intros H Hi Ht. rewrite (Hnf H). clear Hf Hnf H. occurs_to_bool.
    repeat match goal with H : Py.contains _ _ = _ |- _ => rewrite H; clear H end.
    reflexivity.
  - intros _ _ H. by rewrite (Hf H).
  - intros enhanced_result H.
    destruct (_enhance_content_text _ _ H) as [stats ->].
    rewrite lookup_insert_eq. eexists. split; [reflexivity|]. reflexivity.
Qed.

(** ** The table enricher *)

(** C7, the counterexample: a table of 3 rows whose [columns] cannot be
    measured gets the error record, which holds no rows, no columns, no
    has_headers and no summary. *)
Lemma unmeasurable_table_has_no_summary :
  _analyze_single_table
    {| t_rows := Present 3;
       t_columns := Unusable "object of type 'int' has no len()" |} 0 =
  TableError 0 "object of type 'int' has no len()" "unknown" /\
  forall a,
    _analyze_single_table
      {| t_rows := Present 3;
         t_columns := Unusable "object of type 'int' has no len()" |} 0 <>
    Analysed a.
Proof. split; [reflexivity|]. intros a. discriminate. Qed.

(** C7, as the code has it. A table whose exposed [rows] and [columns] can
    be measured gets their counts, and a count whose attribute is absent
    stays at zero; [has_headers] holds exactly when the row count is not
    zero, and the summary is
    "Tableau de {rows} lignes et {columns} colonnes" when both counts are
    not zero and empty otherwise. A table of 3 rows and 4 columns gets
    rows 3, columns 4, has_headers true and
    "Tableau de 3 lignes et 4 colonnes". A table whose exposed [rows]
    cannot be measured, or whose [rows] can and whose exposed [columns]
    cannot, gets the record of the index, the message of the exception
    and the type "unknown" instead; these are all the tables. *)
Theorem table_summary_of_counts (rows columns : option nat) (index : nat) :
  let table := {| t_rows := from_option Present Missing rows;
                  t_columns := from_option Present Missing columns |} in
  let r := default 0 rows in
  let c := default 0 columns in
  (exists a,
     _analyze_single_table table index = Analysed a /\
     ta_index a = index /\ ta_rows a = r /\ ta_columns a = c /\
     ta_has_headers a = bool_decide (r <> 0) /\
     ta_summary a =
       if decide (r <> 0 /\ c <> 0)
       then "Tableau de " +:+ Py.str_of_nat r +:+ " lignes et "
            +:+ Py.str_of_nat c +:+ " colonnes"
       else "") /\
  _analyze_single_table {| t_rows := Present 3; t_columns := Present 4 |} 0 =
  Analysed {| ta_index := 0; ta_type := "data_table";
              ta_description_fr := Py.u "Tableau avec en-têtes";
              ta_description_en := "Table with headers";
              ta_rows := 3; ta_columns := 4; ta_has_headers := true;
              ta_data_types := [];
              ta_summary := "Tableau de 3 lignes et 4 colonnes" |} /\
  (forall (table : Table) (e : string),
     t_rows table = Unusable e ->
     _analyze_single_table table index = TableError index e "unknown") /\
  (forall (table : Table) (e : string),
     (forall e', t_rows table <> Unusable e') ->
     t_columns table = Unusable e ->
     _analyze_single_table table index = TableError index e "unknown") /\
  (forall table : Table,
     (exists rows columns,
        table = {| t_rows := from_option Present Missing rows;
                   t_columns := from_option Present Missing columns |}) \/
     (exists e, t_rows table = Unusable e) \/
     ((forall e', t_rows table <> Unusable e') /\ exists e, t_columns table = Unusable e)).
Proof.
  cbv zeta. split; [|split; [reflexivity|split; [|split]]].
  - destruct rows as [[|r]|], columns as [[|c]|]; simpl;
      (eexists; split; [reflexivity|]); simpl; repeat split;
      try (case_decide; [reflexivity | exfalso; lia]);
      try (case_decide; [exfalso; lia | reflexivity]).
  - intros table e H. unfold _analyze_single_table. by rewrite H.
  - intros table e Hrows H. unfold _analyze_single_table. rewrite H.
    destruct (t_rows table) as [|r|e']; [done|done|by destruct (Hrows e')].
  - intros [[|r|e] [|c|e']].
    + left. by exists None, None.
    + left. by exists None, (Some c).
    + right. right. split; [done|]. by exists e'.
    + left. by exists (Some r), None.
    + left. by exists (Some r), (Some c).
    + right. right. split; [done|]. by exists e'.
    + right. left. by exists e.
    + right. left. by exists e.
    + right. left. by exists e.
Qed.

(** A table whose exposed attribute cannot be measured gets the error
    record of the method's own handler. *)
Lemma _analyze_single_table_unusable (table : Table) (index : nat) (e : string) :
  t_rows table = Unusable e ->
  _analyze_single_table table index = TableError index e "unknown".
Proof. intros H. unfold _analyze_single_table. by rewrite H. Qed.

(** ** The lexical translator *)

Lemma translate_with_no_match (translations : list (string * string))
    (probe text : string) :
  (forall src dst, (src, dst) ∈ translations -> ~ Py.Occurs src probe) ->
  translate_with translations probe text = text.
Proof.
  induction translations as [|[src dst] rest IH]; intros H; simpl; [done|].
  assert (Py.contains src probe = false) as ->.
  { apply contains_absent, (H src dst). left. }
  apply IH. intros s d Hin. apply (H s d). by right.
Qed.

Lemma translate_with_first_match (before after : list (string * string))
    (src dst probe text : string) :
  (forall s d, (s, d) ∈ before -> ~ Py.Occurs s probe) ->
  Py.Occurs src probe ->
  translate_with (before ++ (src, dst) :: after) probe text = Py.replace src dst text.
Proof.
  induction before as [|[s d] before IH]; intros Hbefore Hsrc; simpl.
  - apply contains_occurs in Hsrc. by rewrite Hsrc.
  - assert (Py.contains s probe = false) as ->.
    { apply contains_absent, (Hbefore s d). left. }
    apply IH; [|done]. intros s' d' Hin. apply (Hbefore s' d'). by right.
Qed.

(** C8. The translator applies the first entry of its table that matches,
    and no other, and returns the text unchanged when none matches. Toward
    French an entry matches when its source phrase occurs in the text
    folded to lower case, and the replacement is then made on the text
    itself; toward English an entry matches when its source phrase occurs
    in the text as it is. *)
Theorem translator_applies_first_match (text : string) :
  let forward := fun src => Py.Occurs src (Py.lower text) in
  let backward := fun src => Py.Occurs src text in
  ((forall src dst, (src, dst) ∈ translations_to_french -> ~ forward src) ->
   _translate_to_french text = text) /\
  (forall before src dst after,
     translations_to_french = (before ++ (src, dst) :: after)%list ->
     (forall s d, (s, d) ∈ before -> ~ forward s) -> forward src ->
     _translate_to_french text = Py.replace src dst text) /\
  ((forall src dst, (src, dst) ∈ translations_to_english -> ~ backward src) ->
   _translate_to_english text = text) /\
  (forall before src dst after,
     translations_to_english = (before ++ (src, dst) :: after)%list ->
     (forall s d, (s, d) ∈ before -> ~ backward s) -> backward src ->
     _translate_to_english text = Py.replace src dst text) /\
  _translate_to_french "a dog and a cat" = "un chien and a cat" /\
  _translate_to_french "A DOG" = "A DOG" /\
  _translate_to_english "un chien" = "a dog" /\
  _translate_to_english "UN CHIEN" = "UN CHIEN".
Proof.
  cbv zeta. unfold _translate_to_french, _translate_to_english.
  repeat split; try reflexivity.
  - apply translate_with_no_match.
  - intros before src dst after -> Hbefore Hsrc.
    by apply translate_with_first_match.
  - apply translate_with_no_match.
  - intros before src dst after -> Hbefore Hsrc.
    by apply translate_with_first_match.
Qed.

(** ** Readability *)

Lemma split_dot_length (s : string) :
  length (Py.split "." s) = S (Py.count_char "." s).
Proof.
  unfold Py.split. induction s as [|c s IH]; [done|].
  cbn [Py.split_from Py.startswith Py.count_char String.length Nat.sub].
  destruct (Ascii.eqb "." c); simpl.
  - by rewrite IH.
  - destruct (Py.split_from "." 0 s); simpl in *; [done|lia].
Qed.

Lemma ltb_leb (x y : float) : PrimFloat.ltb x y = true -> PrimFloat.leb x y = true.
Proof.
  rewrite FloatAxioms.ltb_spec, FloatAxioms.leb_spec.
  unfold SpecFloat.SFltb, SpecFloat.SFleb.
  by destruct (SpecFloat.SFcompare _ _) as [[]|].
Qed.

Lemma clamp_range (readability : float) :
  PrimFloat.leb 0 (clamp readability) = true /\
  PrimFloat.leb (clamp readability) 100 = true.
Proof.
  unfold clamp, Py.max, Py.min.
  destruct (PrimFloat.ltb readability 100) eqn:Hhi.
  - destruct (PrimFloat.ltb 0 readability) eqn:Hlo.
    + split; by apply ltb_leb.
    + split; reflexivity.
  - split; reflexivity.
Qed.

(** C6, the counterexample: "hello" has no full stop and its score is
    89.5, not 0. *)
Lemma readability_without_full_stop :
  Py.count_char "." "hello" = 0 /\
  _calculate_readability (VStr "hello") = 89.5%float /\
  _calculate_readability (VStr "hello") <> 0%float.
Proof.
  split; [reflexivity|]. split; [reflexivity|].
  intros H. apply (f_equal (PrimFloat.ltb 0)) in H. vm_compute in H. discriminate.
Qed.

Lemma clamp_cases (readability : float) :
  (PrimFloat.ltb 0 readability = true -> PrimFloat.ltb readability 100 = true ->
   clamp readability = readability) /\
  (PrimFloat.ltb 0 readability = false -> PrimFloat.ltb readability 100 = true ->
   clamp readability = 0%float) /\
  (PrimFloat.ltb readability 100 = false -> clamp readability = 100%float).
Proof.
  unfold clamp, Py.max, Py.min.
  repeat split.
  - intros H1 H2. by rewrite H2, H1.
  - intros H1 H2. by rewrite H2, H1.
  - intros H. by rewrite H.
Qed.

(** C6, as the code has it. With w the number of whitespace-delimited
    words, c the number of characters in these words and s the number of
    pieces the full stops cut the text into (one more than the number of
    full stops, hence never zero), the score of a text is 0 when w is 0
    and otherwise 100 - 0.5 (w / s) - 2 (c / w) clamped to [0, 100], in
    binary64 arithmetic; the score of a value that is not a text is 50.
    Clamping leaves a number above 0 and below 100 as it is, gives 0 for
    one below 100 that is not above 0, and 100 for one that is not below
    100; its result lies between 0 and 100. So "hello" scores 89.5,
    "ab cd. ef gh" scores 94.5 and a word of fifty letters scores 0. *)
Theorem readability_score_formula (text : string) :
  let w := length (Py.split_ws text) in
  let c := sum_list (String.length <$> Py.split_ws text) in
  let s := S (Py.count_char "." text) in
  (w = 0 -> _calculate_readability (VStr text) = 0%float) /\
  (w <> 0 ->
   _calculate_readability (VStr text) =
   clamp (100 - (Py.float_of_nat w / Py.float_of_nat s) * 0.5
              - (Py.float_of_nat c / Py.float_of_nat w) * 2)%float) /\
  (forall readability,
     PrimFloat.leb 0 (clamp readability) = true /\
     PrimFloat.leb (clamp readability) 100 = true) /\
  (forall v, raises (as_str v) -> _calculate_readability v = 50%float) /\
  (forall readability,
     (PrimFloat.ltb 0 readability = true -> PrimFloat.ltb readability 100 = true ->
      clamp readability = readability) /\
     (PrimFloat.ltb 0 readability = false -> PrimFloat.ltb readability 100 = true ->
      clamp readability = 0%float) /\
     (PrimFloat.ltb readability 100 = false -> clamp readability = 100%float)) /\
  _calculate_readability (VStr "hello") = 89.5%float /\
  _calculate_readability (VStr "ab cd. ef gh") = 94.5%float /\
  _calculate_readability (VStr "aaaaaaaaaaaaaaaaaaaaaaaaaaaaaaaaaaaaaaaaaaaaaaaaaa") = 0%float.
Proof.
  cbv zeta.
  split; [|split; [|split; [|split; [|split; [|split; [|split]]]]]].
  - unfold _calculate_readability. simpl. rewrite split_dot_length. by intros ->.
  - unfold _calculate_readability. simpl. rewrite split_dot_length.
    intros Hw. destruct (length (Py.split_ws text)); [done|]. reflexivity.
  - apply clamp_range.
  - intros v [e He]. unfold _calculate_readability. by rewrite He.
  - apply clamp_cases.
  - reflexivity.
  - vm_compute. reflexivity.
  - vm_compute. reflexivity.
Qed.

(** ** The frame of the stages *)

Lemma writes_only_lookup (key k : string) (before after : Aggregate) :
  writes_only key before after -> k <> key -> after !! k = before !! k.
Proof.
  intros [->|[v ->]] Hk; [done|]. by rewrite lookup_insert_ne.
Qed.

(** A stage built as [catch body (fun _ => enhanced_result)] has the frame
    of its body. *)
Lemma stage_frame_of_body (key : string) (body : Aggregate -> exc Aggregate) :
  (forall a r, body a = Ok r -> writes_only key a r) ->
  stage_frame key body (fun a => catch (body a) (fun _ => a)).
Proof.
  intros Hbody a. unfold catch. destruct (body a) as [r|e] eqn:E.
  - specialize (Hbody a r E). split; [|split].
    + intros k Hk. by apply (writes_only_lookup key).
    + by intros [e' ?].
    + by intros r' [= <-].
  - split; [|split]; done.
Qed.

Section Pipeline.

Context {Image : Type}.
Variable caption_model : Image -> exc string.
Variable finditer : string -> string -> list Match.

Implicit Types (self : Handler) (req : Request) (result : ConversionResult Image).
Implicit Types (enhanced_result : Aggregate).

Lemma _add_image_descriptions_body self result enhanced_result r :
  _add_image_descriptions_try caption_model self result enhanced_result = Ok r ->
  writes_only "image_descriptions" enhanced_result r.
Proof.
  unfold _add_image_descriptions_try.
  destruct (image_model_loaded self); simpl; [|intros [= <-]; by left].
  destruct (attr_or _ _); simpl; [|done]. intros [= <-]. right. eauto.
Qed.

Lemma _enrich_formulas_body self result enhanced_result r :
  _enrich_formulas_try finditer self result enhanced_result = Ok r ->
  writes_only "formula_enrichments" enhanced_result r.
Proof.
  unfold _enrich_formulas_try.
  destruct (formula_model_loaded self); simpl; [|intros [= <-]; by left].
  destruct (getitem _ _) as [v|]; simpl; [|done].
  destruct (as_str v); simpl; [|done]. intros [= <-]. right. eauto.
Qed.

Lemma _analyze_tables_body result enhanced_result r :
  _analyze_tables_try result enhanced_result = Ok r ->
  writes_only "table_analysis" enhanced_result r.
Proof.
  unfold _analyze_tables_try.
  destruct (attr_or _ _); simpl; [|done]. intros [= <-]. right. eauto.
Qed.

Lemma _enhance_content_body enhanced_result r :
  _enhance_content_try enhanced_result = Ok r ->
  writes_only "content_enhancement" enhanced_result r.
Proof.
  unfold _enhance_content_try.
  destruct (getitem _ _) as [v|]; simpl; [|done].
  destruct (as_str v); simpl; [|done]. intros [= <-]. right. eauto.
Qed.

Lemma _analyze_document_structure_body result enhanced_result r :
  _analyze_document_structure_try result enhanced_result = Ok r ->
  writes_only "document_structure" enhanced_result r.
Proof.
  unfold _analyze_document_structure_try.
  destruct (attr_or _ _); simpl; [|done]. intros [= <-]. right. eauto.
Qed.

Lemma _add_image_descriptions_frame self result :
  stage_frame "image_descriptions"
    (_add_image_descriptions_try caption_model self result)
    (_add_image_descriptions caption_model self result).
Proof.
  apply (stage_frame_of_body _ (_add_image_descriptions_try caption_model self result)).
  intros a r. apply _add_image_descriptions_body.
Qed.

Lemma _enrich_formulas_frame self result :
  stage_frame "formula_enrichments"
    (_enrich_formulas_try finditer self result) (_enrich_formulas finditer self result).
Proof.
  apply (stage_frame_of_body _ (_enrich_formulas_try finditer self result)).
  intros a r. apply _enrich_formulas_body.
Qed.

Lemma _analyze_tables_frame result :
  stage_frame "table_analysis" (_analyze_tables_try result) (_analyze_tables result).
Proof.
  apply (stage_frame_of_body _ (_analyze_tables_try result)).
  intros a r. apply _analyze_tables_body.
Qed.

Lemma _enhance_content_frame :
  stage_frame "content_enhancement" _enhance_content_try _enhance_content.
Proof.
  apply (stage_frame_of_body _ _enhance_content_try).
  intros a r. apply _enhance_content_body.
Qed.

Lemma _analyze_document_structure_frame result :
  stage_frame "document_structure"
    (_analyze_document_structure_try result) (_analyze_document_structure result).
Proof.
  apply (stage_frame_of_body _ (_analyze_document_structure_try result)).
  intros a r. apply _analyze_document_structure_body.
Qed.

(** C10. Each of the five stages writes the one key that is its own and
    no other: whatever dictionary it is passed, every other key, and so
    "content", "output_format" and the keys of the stages before it, comes
    back as it was, whether the stage's [try] block returns or raises; a
    block that returns past the readiness check has written the key of
    its stage. *)
Theorem stages_write_only_their_own_key self result :
  stage_frame "image_descriptions"
    (_add_image_descriptions_try caption_model self result)
    (_add_image_descriptions caption_model self result) /\
  stage_frame "formula_enrichments"
    (_enrich_formulas_try finditer self result) (_enrich_formulas finditer self result) /\
  stage_frame "table_analysis" (_analyze_tables_try result) (_analyze_tables result) /\
  stage_frame "content_enhancement" _enhance_content_try _enhance_content /\
  stage_frame "document_structure"
    (_analyze_document_structure_try result) (_analyze_document_structure result) /\
  (forall enhanced_result k,
     k = "content" \/ k = "output_format" ->
     _add_image_descriptions caption_model self result enhanced_result !! k
       = enhanced_result !! k /\
     _enrich_formulas finditer self result enhanced_result !! k = enhanced_result !! k /\
     _analyze_tables result enhanced_result !! k = enhanced_result !! k /\
     _enhance_content enhanced_result !! k = enhanced_result !! k /\
     _analyze_document_structure result enhanced_result !! k = enhanced_result !! k) /\
  (forall enhanced_result r,
     (image_model_loaded self = true ->
      _add_image_descriptions_try caption_model self result enhanced_result = Ok r ->
      is_Some (r !! "image_descriptions")) /\
     (formula_model_loaded self = true ->
      _enrich_formulas_try finditer self result enhanced_result = Ok r ->
      is_Some (r !! "formula_enrichments")) /\
     (_analyze_tables_try result enhanced_result = Ok r ->
      is_Some (r !! "table_analysis")) /\
     (_enhance_content_try enhanced_result = Ok r ->
      is_Some (r !! "content_enhancement")) /\
     (_analyze_document_structure_try result enhanced_result = Ok r ->
      is_Some (r !! "document_structure"))).
Proof.
  pose proof (_add_image_descriptions_frame self result) as H1.
  pose proof (_enrich_formulas_frame self result) as H2.
  pose proof (_analyze_tables_frame result) as H3.
  pose proof _enhance_content_frame as H4.
  pose proof (_analyze_document_structure_frame result) as H5.
  split; [exact H1|]. split; [exact H2|]. split; [exact H3|].
  split; [exact H4|]. split; [exact H5|].
  split.
  - intros a k Hk.
    destruct (H1 a) as [F1 _], (H2 a) as [F2 _], (H3 a) as [F3 _],
             (H4 a) as [F4 _], (H5 a) as [F5 _].
    repeat split; [apply F1 | apply F2 | apply F3 | apply F4 | apply F5];
      destruct Hk as [-> | ->]; done.
  - intros a r.
    unfold _add_image_descriptions_try, _enrich_formulas_try, _analyze_tables_try,
      _enhance_content_try, _analyze_document_structure_try.
    split; [|split; [|split; [|split]]].
    + intros ->. simpl. destruct (attr_or _ _); simpl; [|done].
      intros [= <-]. by rewrite lookup_insert_eq.
    + intros ->. simpl. destruct (getitem _ _) as [v|]; simpl; [|done].
      destruct (as_str v); simpl; [|done]. intros [= <-]. by rewrite lookup_insert_eq.
    + destruct (attr_or _ _); simpl; [|done].
      intros [= <-]. by rewrite lookup_insert_eq.
    + destruct (getitem _ _) as [v|]; simpl; [|done].
      destruct (as_str v); simpl; [|done]. intros [= <-]. by rewrite lookup_insert_eq.
    + destruct (attr_or _ _); simpl; [|done].
      intros [= <-]. by rewrite lookup_insert_eq.
Qed.

(** ** The manifest of features *)

Lemma features_of_use_feature (name : string) enhanced_result fs :
  features_of enhanced_result = Some fs ->
  exists r, use_feature name enhanced_result = Ok r /\
            features_of r = Some (fs ++ [name])%list.
Proof.
  unfold features_of, use_feature, getitem.
  destruct (enhanced_result !! "metadata") as [[]|]; try done.
  intros [= <-]. simpl. eexists. split; [reflexivity|].
  by rewrite lookup_insert_eq.
Qed.

(** A guarded stage call followed by the append of its name. *)
Lemma gated_stage_features (gate : bool) (name key : string)
    (body : Aggregate -> exc Aggregate) (stage : Aggregate -> Aggregate)
    enhanced_result fs :
  stage_frame key body stage -> key <> "metadata" ->
  features_of enhanced_result = Some fs ->
  exists r,
    (if gate then use_feature name (stage enhanced_result) else Ok enhanced_result) = Ok r /\
    features_of r = Some (fs ++ if gate then [name] else [])%list.
Proof.
  intros Hframe Hkey Hfs. destruct gate.
  - apply features_of_use_feature. unfold features_of in *.
    destruct (Hframe enhanced_result) as [Hk _]. rewrite Hk; [done|]. congruence.
  - exists enhanced_result. by rewrite app_nil_r.
Qed.

(** The enhanced processing always returns, and its manifest is the list
    of the stages whose guard held. *)
Lemma enhanced_processing_features self req result (content : string) :
  exists r,
    enhanced_processing caption_model finditer self req result content = Ok r /\
    features_of r = Some (gated_stages self req).
Proof.
  unfold enhanced_processing, gated_stages.
  set (a0 := <["metadata" := _]> _).
  assert (H0 : features_of a0 = Some []).
  { unfold features_of, a0. by rewrite lookup_insert_eq. }
  destruct (gated_stage_features
              (include_images req && include_image_descriptions req
               && image_model_loaded self)
              "image_descriptions" _ _ _ a0 []
              (_add_image_descriptions_frame self result)) as (a1 & -> & H1);
    [done|done|].
  destruct (gated_stage_features
              (include_formula_enrichment req && formula_model_loaded self)
              "formula_enrichment" _ _ _ a1 _
              (_enrich_formulas_frame self result) ltac:(done) H1) as (a2 & E2 & H2).
  destruct (gated_stage_features (include_tables req)
              "table_analysis" _ _ _ a2 _
              (_analyze_tables_frame result) ltac:(done) H2) as (a3 & E3 & H3).
  destruct (gated_stage_features (enhance_content req)
              "content_enhancement" _ _ _ a3 _
              _enhance_content_frame ltac:(done) H3) as (a4 & E4 & H4).
  destruct (gated_stage_features true
              "structure_analysis" _ _ _ a4 _
              (_analyze_document_structure_frame result) ltac:(done) H4) as (a5 & E5 & H5).
  exists a5. cbn [mbind exc_bind]. rewrite E2. cbn [mbind exc_bind].
  rewrite E3. cbn [mbind exc_bind]. rewrite E4. cbn [mbind exc_bind].
  split; [exact E5|]. rewrite H5. f_equal. simpl. by rewrite <- !app_assoc.
Qed.

Variable new_converter : exc Converter.
Variable load_image_model : exc unit.
Variable load_formula_model : exc unit.
Variable convert_file : Converter -> string -> exc (ConversionResult Image).

Abbreviation run := (convert_document caption_model finditer new_converter
                       load_image_model load_formula_model convert_file).

(** When [convert_document] returns, it returns what the enhanced
    processing made of some conversion result, with the handler as the
    call leaves it. *)
Lemma convert_document_returns self req self' r :
  run self req = (self', Ok r) ->
  exists result content,
    enhanced_processing caption_model finditer self' req result content = Ok r.
Proof.
  unfold convert_document.
  destruct (is_ready _ _ _ self) as [s1 ready]. destruct ready; simpl; [|done].
  intros [= <- H]. revert H.
  match goal with |- context [converter ?s] => destruct (converter s) as [c|] end;
    [|done].
  destruct (convert_file c _) as [result|]; simpl; [|done].
  match goal with |- context [if ?b then _ else _] => destruct b end;
    match goal with |- context [mbind _ ?m] => destruct m as [content|] end;
    simpl; try done; eauto.
Qed.

(** C1, as the code has it. The manifest [features_used] of a returned
    result lists, in the order of the calls, exactly the stages whose guard
    held: the stage's flags (for the image descriptions, [include_images]
    too) and its readiness precondition; the structure analysis has no
    flag and is always listed. Neither an exception caught inside a stage
    nor any number of item failures removes a stage from the list. *)
Theorem features_used_lists_guarded_stages self req :
  (forall result content,
     exists r,
       enhanced_processing caption_model finditer self req result content = Ok r /\
       features_of r = Some (gated_stages self req)) /\
  (forall self' r,
     run self req = (self', Ok r) -> features_of r = Some (gated_stages self' req)).
Proof.
  split.
  - intros result content. apply enhanced_processing_features.
  - intros self' r H.
    destruct (convert_document_returns _ _ _ _ H) as (result & content & E).
    destruct (enhanced_processing_features self' req result content) as (r' & E' & F).
    congruence.
Qed.

(** ** Failing captions *)

Lemma describe_images_length (generate : Image -> exc string)
    (translate : string -> exc string) (start : nat) (imgs : list Image) :
  length (describe_images generate translate start imgs) = length imgs.
Proof.
  revert start. induction imgs as [|image imgs IH]; intros start; simpl; [done|].
  by rewrite IH.
Qed.

Lemma describe_images_lookup (generate : Image -> exc string)
    (translate : string -> exc string) (start : nat) (imgs : list Image)
    (i : nat) (image : Image) :
  imgs !! i = Some image ->
  describe_images generate translate start imgs !! i =
  Some (catch (description ← generate image;
               english ← translate description;
               mret {| img_index := start + i;
                       img_description_fr := description;
                       img_description_en := english |})
              (fun _ => image_fallback (start + i))).
Proof.
  revert start i. induction imgs as [|image' imgs IH]; intros start i; [done|].
  destruct i as [|i]; simpl.
  - intros [= ->]. by rewrite Nat.add_0_r.
  - intros H. rewrite (IH (S start) i H).
    by replace (S start + i) with (start + S i) by lia.
Qed.

Lemma _generate_image_description_failed (image : Image) :
  raises (caption_model image) ->
  _generate_image_description caption_model image = "Image avec contenu visuel".
Proof. intros [e He]. unfold _generate_image_description. by rewrite He. Qed.

Lemma _add_image_descriptions_present self result enhanced_result (imgs : list Image) :
  image_model_loaded self = true ->
  images (document result) = Present imgs ->
  _add_image_descriptions caption_model self result enhanced_result =
  <["image_descriptions" :=
     VImageDescriptions
       (describe_images
          (fun image => Ok (_generate_image_description caption_model image))
          (fun description => Ok (_translate_to_english description)) 0 imgs)]>
  enhanced_result.
Proof.
  intros Hloaded Himgs.
  unfold _add_image_descriptions, _add_image_descriptions_try.
  by rewrite Hloaded, Himgs.
Qed.

Lemma use_feature_lookup (name k : string) enhanced_result r :
  use_feature name enhanced_result = Ok r -> k <> "metadata" ->
  r !! k = enhanced_result !! k.
Proof.
  unfold use_feature. destruct (getitem _ _) as [[]|]; simpl; try done.
  intros [= <-] Hk. by rewrite lookup_insert_ne.
Qed.

Lemma gated_stage_lookup (gate : bool) (name key k : string)
    (body : Aggregate -> exc Aggregate) (stage : Aggregate -> Aggregate)
    enhanced_result r :
  stage_frame key body stage -> k <> key -> k <> "metadata" ->
  (if gate then use_feature name (stage enhanced_result) else Ok enhanced_result) = Ok r ->
  r !! k = enhanced_result !! k.
Proof.
  intros Hframe Hkey Hmeta. destruct gate.
  - intros H. rewrite (use_feature_lookup _ _ _ _ H Hmeta).
    destruct (Hframe enhanced_result) as [Hk _]. by apply Hk.
  - by intros [= <-].
Qed.


(** ** The item loops *)

Lemma analyze_each_length (analyze : Table -> nat -> exc TableAnalysis) (start : nat)
    (tbls : list Table) :
  length (analyze_each analyze start tbls) = length tbls.
Proof.
  revert start. induction tbls as [|table tbls IH]; intros start; simpl; [done|].
  by rewrite IH.
Qed.

Lemma analyze_each_lookup (analyze : Table -> nat -> exc TableAnalysis) (start : nat)
    (tbls : list Table) (i : nat) (table : Table) :
  tbls !! i = Some table ->
  analyze_each analyze start tbls !! i =
  Some (catch (analyze table (start + i)) (fun e => TableError (start + i) e "unknown")).
Proof.
  revert start i. induction tbls as [|table' tbls IH]; intros start i; [done|].
  destruct i as [|i]; simpl.
  - intros [= ->]. by rewrite Nat.add_0_r.
  - intros H. rewrite (IH (S start) i H).
    by replace (S start + i) with (start + S i) by lia.
Qed.

Lemma enrich_matches_omap (enrich : string -> exc FormulaInfo) (matches : list Match) :
  enrich_matches enrich matches = omap (enrichment_record enrich) matches.
Proof.
  induction matches as [|m matches IH]; simpl; [done|].
  unfold enrichment_record at 1. destruct (enrich (group m)); by rewrite IH.
Qed.

Lemma enrich_matches_app (enrich : string -> exc FormulaInfo) (before after : list Match) :
  enrich_matches enrich (before ++ after) =
  (enrich_matches enrich before ++ enrich_matches enrich after)%list.
Proof.
  induction before as [|m before IH]; simpl; [done|].
  destruct (enrich (group m)); by rewrite IH.
Qed.

(** The item-level handlers of the three loops, whatever the awaited
    methods do: in the images loop and in the tables loop the handler
    appends the fallback record of the loop in the place of the item; the
    handler of the formula loop only logs a warning, so the records are
    those of the matches whose enrichment returned. Every loop goes on
    behind the item. *)
Lemma item_handlers_of_the_loops :
  (forall (generate : Image -> exc string) (translate : string -> exc string)
          (start : nat) (imgs : list Image),
     length (describe_images generate translate start imgs) = length imgs /\
     forall i image,
       imgs !! i = Some image ->
       raises (description ← generate image; translate description) ->
       describe_images generate translate start imgs !! i
       = Some (image_fallback (start + i))) /\
  (forall (analyze : Table -> nat -> exc TableAnalysis) (start : nat)
          (tbls : list Table),
     length (analyze_each analyze start tbls) = length tbls /\
     forall i table e,
       tbls !! i = Some table ->
       analyze table (start + i) = Raise e ->
       analyze_each analyze start tbls !! i
       = Some (TableError (start + i) e "unknown")) /\
  (forall (enrich : string -> exc FormulaInfo) (matches : list Match),
     enrich_matches enrich matches = omap (enrichment_record enrich) matches /\
     forall before m after,
       matches = (before ++ m :: after)%list ->
       raises (enrich (group m)) ->
       enrich_matches enrich matches
       = (enrich_matches enrich before ++ enrich_matches enrich after)%list).
Proof.
  split; [|split].
  - intros generate translate start imgs. split; [apply describe_images_length|].
    intros i image Hlookup [e He].
    rewrite (describe_images_lookup _ _ _ _ _ _ Hlookup).
    f_equal. simpl in He. unfold catch. simpl.
    destruct (generate image) as [d|]; simpl in *; [|done].
    by destruct (translate d).
  - intros analyze start tbls. split; [apply analyze_each_length|].
    intros i table e Hlookup He.
    rewrite (analyze_each_lookup _ _ _ _ _ Hlookup). by rewrite He.
  - intros enrich matches. split; [apply enrich_matches_omap|].
    intros before m after -> [e He].
    rewrite enrich_matches_app. simpl. by rewrite He.
Qed.

(** With the methods of the class the item-level handlers are not
    reached: each method catches its own exceptions, so every item gets
    the record its method returned. *)
Lemma class_methods_record_every_item (matches : list Match) (tbls : list Table)
    (start : nat) :
  length (enrich_matches (fun formula_text => Ok (_enrich_single_formula formula_text))
                         matches) = length matches /\
  analyze_each (fun table i => Ok (_analyze_single_table table i)) start tbls
  = imap (fun i table => _analyze_single_table table (start + i)) tbls.
Proof.
  split.
  - induction matches as [|m matches IH]; simpl; [done|]. by rewrite IH.
  - revert start. induction tbls as [|table tbls IH]; intros start; simpl; [done|].
    rewrite Nat.add_0_r. f_equal. rewrite IH. apply imap_ext.
    intros i x _. simpl. f_equal. lia.
Qed.

Lemma enrich_matches_returned (matches : list Match) :
  enrich_matches (fun formula_text => Ok (_enrich_single_formula formula_text)) matches =
  (fun m => {| fe_original := group m;
               fe_enriched := _enrich_single_formula (group m);
               fe_position := span m |}) <$> matches.
Proof. induction matches as [|m matches IH]; simpl; [done|]. by rewrite IH. Qed.

(** C2. In the three stages that iterate a collection, with the methods
    of the class, an exception raised while one item is processed is
    caught at the item, a fixed fallback record is appended in the place
    of the item, and the loop goes on: the stage returns, writes its key,
    and the key holds one record per item, in the order of the items.
    For an image whose captioning raises the record is the index with
    "Image avec contenu visuel" as both descriptions; an image whose
    captioning returns gets its caption. For a table one of whose exposed
    attributes cannot be measured the record is the index, the message of
    the exception and the type "unknown". The enrichment of a matched
    formula never raises: every match of every pattern gets its record. *)
Theorem item_failures_do_not_abort_loops (self : Handler)
    (result : ConversionResult Image) (enhanced_result : Aggregate) :
  (forall imgs : list Image,
     image_model_loaded self = true ->
     images (document result) = Present imgs ->
     exists l,
       _add_image_descriptions caption_model self result enhanced_result =
       <["image_descriptions" := VImageDescriptions l]> enhanced_result /\
       length l = length imgs /\
       (forall i image,
          imgs !! i = Some image -> raises (caption_model image) ->
          l !! i = Some (undescribed i)) /\
       (forall i image caption,
          imgs !! i = Some image -> caption_model image = Ok caption ->
          l !! i = Some {| img_index := i;
                           img_description_fr := _translate_to_french caption;
                           img_description_en :=
                             _translate_to_english (_translate_to_french caption) |})) /\
  (forall tbls : list Table,
     tables (document result) = Present tbls ->
     exists l,
       _analyze_tables result enhanced_result =
       <["table_analysis" := VTableAnalysis l]> enhanced_result /\
       length l = length tbls /\
       (forall i table e,
          tbls !! i = Some table ->
          t_rows table = Unusable e \/
          ((forall e', t_rows table <> Unusable e') /\ t_columns table = Unusable e) ->
          l !! i = Some (TableError i e "unknown")) /\
       (forall i table rows columns,
          tbls !! i = Some table ->
          t_rows table = from_option Present Missing rows ->
          t_columns table = from_option Present Missing columns ->
          exists a, l !! i = Some (Analysed a) /\ ta_index a = i /\
                    ta_rows a = default 0 rows /\ ta_columns a = default 0 columns)) /\
  (forall content : string,
     formula_model_loaded self = true ->
     enhanced_result !! "content" = Some (VStr content) ->
     exists l,
       _enrich_formulas finditer self result enhanced_result =
       <["formula_enrichments" := VFormulaEnrichments l]> enhanced_result /\
       l = flat_map (fun pattern =>
                       (fun m => {| fe_original := group m;
                                    fe_enriched := _enrich_single_formula (group m);
                                    fe_position := span m |}) <$> finditer pattern content)
                    math_patterns /\
       length l = sum_list ((fun pattern => length (finditer pattern content))
                            <$> math_patterns)).
Proof.
  split; [|split].
  - intros imgs Hloaded Himgs. eexists. split; [|split; [|split]].
    + by apply _add_image_descriptions_present.
    + apply describe_images_length.
    + intros i image Hlookup Hraise.
      rewrite (describe_images_lookup _ _ _ _ _ _ Hlookup). simpl.
      by rewrite (_generate_image_description_failed _ Hraise).
    + intros i image caption Hlookup Hcaption.
      rewrite (describe_images_lookup _ _ _ _ _ _ Hlookup). simpl.
      unfold _generate_image_description. by rewrite Hcaption.
  - intros tbls Htbls. eexists. split; [|split; [|split]].
    + unfold _analyze_tables, _analyze_tables_try. by rewrite Htbls.
    + apply analyze_each_length.
    + intros i table e Hlookup H.
      rewrite (analyze_each_lookup _ _ _ _ _ Hlookup). simpl. f_equal.
      unfold _analyze_single_table.
      destruct H as [H|[Hrows H]]; rewrite H; [done|].
      destruct (t_rows table) as [|r|e']; [done|done|by destruct (Hrows e')].
    + intros i table rows columns Hlookup Hrows Hcolumns.
      rewrite (analyze_each_lookup _ _ _ _ _ Hlookup). simpl.
      unfold _analyze_single_table. rewrite Hrows, Hcolumns.
      destruct rows, columns; simpl; eexists; (split; [reflexivity|]); done.
  - intros content Hloaded Hcontent. eexists. split; [|split].
    + unfold _enrich_formulas, _enrich_formulas_try, getitem.
      rewrite Hloaded, Hcontent. simpl. reflexivity.
    + unfold math_patterns. simpl. by rewrite !enrich_matches_returned.
    + unfold math_patterns. simpl. rewrite !length_app.
      rewrite !(proj1 (class_methods_record_every_item _ [] 0)). simpl. lia.
Qed.

(** ** Repeated calls *)

Lemma _update_ocr_languages_idempotent self (languages : list string) :
  _update_ocr_languages (_update_ocr_languages self languages) languages
  = _update_ocr_languages self languages.
Proof.
  unfold _update_ocr_languages.
  destruct (converter self) as [[[options|]]|] eqn:E; simpl; rewrite ?E; try done.
  do 4 f_equal. rewrite <- list_fmap_compose. apply list_fmap_ext.
  intros _ [[l|]] _; done.
Qed.

Lemma _update_ocr_languages_ready self (languages : list string) :
  model_loaded (_update_ocr_languages self languages) = model_loaded self /\
  (is_Some (converter self) ->
   is_Some (converter (_update_ocr_languages self languages))).
Proof.
  unfold _update_ocr_languages.
  destruct (converter self) as [[[options|]]|] eqn:E; simpl; rewrite ?E; eauto.
Qed.

Abbreviation ready := (is_ready new_converter load_image_model load_formula_model).

Lemma is_ready_loaded self :
  model_loaded self = true -> is_Some (converter self) -> ready self = (self, true).
Proof.
  intros Hm Hc. unfold is_ready. rewrite Hm. simpl. by rewrite bool_decide_eq_true_2.
Qed.

Lemma is_ready_true self s1 :
  ready self = (s1, true) -> model_loaded s1 = true /\ is_Some (converter s1).
Proof.
  unfold is_ready, initialize.
  destruct (model_loaded self) eqn:Hm; simpl.
  - intros [= <- H]. split; [done|]. by apply bool_decide_eq_true in H.
  - destruct new_converter as [c|]; [|done].
    intros [= <- _]. simpl. split; [done|].
    unfold _initialize_formula_model, _initialize_image_model, catch.
    destruct load_image_model, load_formula_model; simpl; eauto.
Qed.

Lemma is_ready_false self s1 : ready self = (s1, false) -> ready s1 = (s1, false).
Proof.
  unfold is_ready at 1, initialize.
  destruct (model_loaded self) eqn:Hm; simpl.
  - intros [= <- H]. unfold is_ready. by rewrite Hm, H.
  - destruct new_converter as [c|] eqn:Hc.
    + intros [= _ H]. exfalso. revert H. simpl.
      unfold _initialize_formula_model, _initialize_image_model, catch.
      destruct load_image_model, load_formula_model; done.
    + intros [= <-]. unfold is_ready, initialize. by rewrite Hm.
Qed.

(** C9. A call of [convert_document] repeated on the handler the first
    call left, with the same arguments and the same behaviour of the
    collaborators, returns the same result and leaves the same handler:
    nothing the first call wrote into the handler changes the second.
    The enriched result depends on the handler only through the two
    readiness flags. *)
Theorem convert_document_is_repeatable self req :
  run (run self req).1 req = run self req /\
  (forall self1 self2 result content,
     image_model_loaded self1 = image_model_loaded self2 ->
     formula_model_loaded self1 = formula_model_loaded self2 ->
     enhanced_processing caption_model finditer self1 req result content
     = enhanced_processing caption_model finditer self2 req result content).
Proof.
  split.
  - destruct (run self req) as [s2 out] eqn:E. simpl.
    unfold convert_document in E.
    destruct (ready self) as [s1 [|]] eqn:R; simpl in E.
    + destruct (is_ready_true _ _ R) as [Hm Hc].
      destruct (given_languages req) as [languages|] eqn:L; injection E as <- <-.
      * destruct (_update_ocr_languages_ready s1 languages) as [Hm' Hc'].
        unfold convert_document.
        rewrite (is_ready_loaded (_update_ocr_languages s1 languages))
          by (by rewrite ?Hm'; eauto).
        simpl. by rewrite L, _update_ocr_languages_idempotent.
      * unfold convert_document. rewrite (is_ready_loaded s1 Hm Hc). simpl.
        by rewrite L.
    + injection E as <- <-. unfold convert_document. by rewrite (is_ready_false _ _ R).
  - intros self1 self2 result content H1 H2.
    unfold enhanced_processing, _add_image_descriptions, _add_image_descriptions_try,
      _enrich_formulas, _enrich_formulas_try.
    by rewrite H1, H2.
Qed.

End Pipeline.

(** ** Instances of the claims *)

(** C1, the counterexample: with every flag set and both models loaded,
    the [try] block of the image stage raises on a document whose images
    cannot be iterated; the result carries no "image_descriptions" and
    yet its manifest lists the stage. *)
Lemma failed_stage_is_still_listed :
  exists r,
    convert_document Sample.failing_caption Sample.no_match
      (Ok {| format_options := None |}) (Ok ()) (Ok ())
      (fun _ _ => Ok Sample.broken_images) Sample.loaded Sample.all_features
    = (Sample.loaded, Ok r) /\
    (forall a, raises (_add_image_descriptions_try Sample.failing_caption
                         Sample.loaded Sample.broken_images a)) /\
    r !! "image_descriptions" = None /\
    features_of r = Some [ "image_descriptions"; "formula_enrichment";
                           "table_analysis"; "content_enhancement";
                           "structure_analysis" ].
Proof.
  eexists. split; [reflexivity|]. split; [by eexists|].
  split; vm_compute; reflexivity.
Qed.


Lemma item_failures_do_not_abort_loops_witness :
  (exists l,
     _add_image_descriptions Sample.failing_caption Sample.loaded Sample.one_image ∅ =
     <["image_descriptions" := VImageDescriptions l]> ∅ /\
     length l = 1 /\ l !! 0 = Some (undescribed 0)) /\
  (exists l,
     _analyze_tables Scenario.two_tables ∅ = <["table_analysis" := VTableAnalysis l]> ∅ /\
     length l = 2 /\ l !! 1 = Some (TableError 1 "no len" "unknown")).
Proof.
  destruct (item_failures_do_not_abort_loops Sample.failing_caption Sample.no_match
              Sample.loaded Sample.one_image ∅) as (Himages & _ & _).
  destruct (item_failures_do_not_abort_loops Sample.failing_caption Sample.no_match
              Sample.loaded Scenario.two_tables ∅) as (_ & Htables & _).
  split.
  - destruct (Himages [7] eq_refl eq_refl) as (l & H1 & H2 & H3 & _).
    exists l. split; [exact H1|]. split; [exact H2|].
    apply (H3 0 7 eq_refl). by eexists.
  - destruct (Htables _ eq_refl) as (l & H1 & H2 & H3 & _).
    exists l. split; [exact H1|]. split; [exact H2|].
    apply (H3 1 _ "no len" eq_refl). by left.
Defined.


(** * Further properties of the handler *)

#[local] Set Warnings "-clear-no-such-hyp".

(** ** Characters and pieces *)

Lemma contains_char (c : ascii) (s : string) :
  Py.contains (String c "") s = negb (Nat.eqb (Py.count_char c s) 0).
Proof.
  induction s as [|d s IH]; [done|].
  rewrite contains_cons, IH. cbn [Py.startswith Py.count_char].
  destruct (Ascii.eqb c d); [|done]. by destruct s.
Qed.

Lemma occurs_char (c : ascii) (s : string) :
  Py.Occurs (String c "") s <-> Py.count_char c s <> 0.
Proof.
  rewrite <- contains_occurs, contains_char.
  destruct (Nat.eqb_spec (Py.count_char c s) 0); simpl; split; try done; lia.
Qed.

Lemma count_char_app (c : ascii) (s t : string) :
  Py.count_char c (s +:+ t) = Py.count_char c s + Py.count_char c t.
Proof. induction s as [|d s IH]; simpl; [done|]. rewrite IH. lia. Qed.

(** The equation of [split] on a separator of one character. *)
Lemma split_char_cons (c d : ascii) (s : string) :
  Py.split (String c "") (String d s) =
  if Ascii.eqb c d then "" :: Py.split (String c "") s
  else match Py.split (String c "") s with
       | p :: ps => String d p :: ps
       | [] => [String d ""]
       end.
Proof.
  unfold Py.split. cbn [Py.split_from Py.startswith String.length Nat.sub].
  destruct (Ascii.eqb c d); [|done]. by destruct s.
Qed.

Lemma split_char_nonempty (c : ascii) (s : string) : Py.split (String c "") s <> [].
Proof.
  induction s as [|d s IH]; [done|]. rewrite split_char_cons.
  destruct (Ascii.eqb c d); [done|]. by destruct (Py.split _ s).
Qed.

(** No piece contains the separator. *)
Lemma split_char_pieces (c : ascii) (s : string) :
  Forall (fun p => Py.count_char c p = 0) (Py.split (String c "") s).
Proof.
  induction s as [|d s IH]; [by repeat constructor|].
  rewrite split_char_cons. destruct (Ascii.eqb c d) eqn:E.
  - by constructor.
  - destruct (Py.split _ s) as [|p ps] eqn:Es; [by apply split_char_nonempty in Es|].
    inversion_clear IH. constructor; [|done]. simpl. by rewrite E.
Qed.

(** The first piece is what comes before the first separator. *)
Lemma split_char_first (c : ascii) (before after : string) :
  Py.count_char c before = 0 ->
  first_piece (Py.split (String c "") (before +:+ String c after)) = before /\
  first_piece (Py.split (String c "") before) = before.
Proof.
  induction before as [|d before IH]; intros H.
  - split; [|done]. change ("" +:+ String c after) with (String c after).
    rewrite split_char_cons. by rewrite Ascii.eqb_refl.
  - simpl in H. destruct (Ascii.eqb c d) eqn:E; [done|].
    destruct (IH H) as [IH1 IH2]. unfold first_piece in *.
    change (String d before +:+ String c after)
      with (String d (before +:+ String c after)).
    rewrite !split_char_cons, E.
    pose proof (split_char_nonempty c (before +:+ String c after)).
    pose proof (split_char_nonempty c before).
    destruct (Py.split _ (before +:+ _)), (Py.split _ before); simpl in *; try done.
    by subst.
Qed.

Lemma lower_char_dot (d : ascii) :
  Ascii.eqb "." (Py.lower_char d) = Ascii.eqb "." d.
Proof. by destruct d as [[] [] [] [] [] [] [] []]. Qed.

Lemma lower_char_idempotent (d : ascii) :
  Py.lower_char (Py.lower_char d) = Py.lower_char d.
Proof. by destruct d as [[] [] [] [] [] [] [] []]. Qed.

Lemma lower_idempotent (s : string) : Py.lower (Py.lower s) = Py.lower s.
Proof.
  induction s as [|d s IH]; [done|]. cbn [Py.lower].
  by rewrite lower_char_idempotent, IH.
Qed.

Lemma count_dot_lower (s : string) :
  Py.count_char "." (Py.lower s) = Py.count_char "." s.
Proof.
  induction s as [|d s IH]; [done|]. cbn [Py.lower Py.count_char].
  by rewrite lower_char_dot, IH.
Qed.

Lemma last_piece_elem (pieces : list string) :
  pieces <> [] -> last_piece pieces ∈ pieces.
Proof.
  intros H. unfold last_piece. destruct (last pieces) as [p|] eqn:E.
  - simpl. apply last_Some_elem_of in E. done.
  - by apply last_None in E.
Qed.

(** ** The file extension of a URL *)

Lemma dict_get_unknown (mapping : list (string * string)) (key default : string) :
  (forall v, (key, v) ∉ mapping) -> dict_get mapping key default = default.
Proof.
  induction mapping as [|[k v] rest IH]; intros H; simpl; [done|].
  destruct (String.eqb_spec k key) as [->|].
  - exfalso. apply (H v). left.
  - apply IH. intros v' Hin. apply (H v'). by right.
Qed.

Lemma content_type_map_known (key : string) :
  dict_get content_type_map key "pdf" ∈ known_extensions.
Proof.
  unfold content_type_map, known_extensions. cbn [dict_get].
  repeat (match goal with |- context [String.eqb ?a ?b] => destruct (String.eqb a b) end;
          [set_solver|]).
  set_solver.
Qed.

(** X1. When the path of the URL (what comes before the first question
    mark) contains a dot, the extension is what follows its last dot,
    folded to lower case: it contains no dot, it is in lower case, and the
    content type plays no part. So "https://example.com/download" served
    as a PDF has the extension "com/download". *)
Theorem file_extension_of_dotted_path (url content_type : string) :
  let url_path := first_piece (Py.split "?" url) in
  Py.Occurs "." url_path ->
  _get_file_extension url content_type
    = Py.lower (last_piece (Py.split "." url_path)) /\
  ~ Py.Occurs "." (_get_file_extension url content_type) /\
  Py.lower (_get_file_extension url content_type)
    = _get_file_extension url content_type /\
  (forall other, _get_file_extension url other = _get_file_extension url content_type) /\
  _get_file_extension "https://example.com/download" "application/pdf" = "com/download".
Proof.
  cbv zeta. intros Hdot. unfold _get_file_extension.
  apply contains_occurs in Hdot. rewrite Hdot.
  split; [done|]. split; [|split; [apply lower_idempotent|split; [done|reflexivity]]].
  rewrite occurs_char, count_dot_lower. intros H. apply H.
  pose proof (split_char_pieces "." (first_piece (Py.split "?" url))) as Hpieces.
  rewrite Forall_forall in Hpieces. apply Hpieces.
  apply last_piece_elem, split_char_nonempty.
Qed.

Lemma file_extension_of_dotted_path_witness :
  _get_file_extension "https://host.org/Report.PDF?v=1.2" "text/html" = "pdf".
Proof.
  destruct (file_extension_of_dotted_path "https://host.org/Report.PDF?v=1.2" "text/html")
    as [H _].
  - apply contains_occurs. reflexivity.
  - rewrite H. reflexivity.
Defined.

(** X2. What follows the first question mark of a URL plays no part in
    its extension. *)
Theorem file_extension_ignores_query (base query content_type : string) :
  ~ Py.Occurs "?" base ->
  _get_file_extension (base +:+ "?" +:+ query) content_type
  = _get_file_extension base content_type.
Proof.
  intros H. apply contains_absent in H. rewrite contains_char in H.
  apply negb_false_iff, Nat.eqb_eq in H.
  destruct (split_char_first "?" base query H) as [H1 H2].
  unfold _get_file_extension.
  change (base +:+ "?" +:+ query) with (base +:+ String "?" query).
  by rewrite H1, H2.
Qed.

Lemma file_extension_ignores_query_witness :
  _get_file_extension ("http://h/a.docx" +:+ "?" +:+ "name=b.txt") ""
  = _get_file_extension "http://h/a.docx" "".
Proof.
  apply (file_extension_ignores_query "http://h/a.docx" "name=b.txt" "").
  apply contains_absent. reflexivity.
Defined.

(** X3. When the path of the URL contains no dot, the extension is looked
    up from the content type folded to lower case: it is one of the eight
    extensions of the table, and "pdf" for a content type the table does
    not hold word for word (one with parameters, say). *)
Theorem file_extension_from_content_type (url content_type : string) :
  ~ Py.Occurs "." (first_piece (Py.split "?" url)) ->
  _get_file_extension url content_type ∈ known_extensions /\
  (forall other,
     Py.lower other = Py.lower content_type ->
     _get_file_extension url other = _get_file_extension url content_type) /\
  ((forall extension, (Py.lower content_type, extension) ∉ content_type_map) ->
   _get_file_extension url content_type = "pdf") /\
  _get_file_extension "localhost/doc" "Text/HTML" = "html" /\
  _get_file_extension "localhost/doc" "text/html; charset=utf-8" = "pdf".
Proof.
  intros H. apply contains_absent in H. unfold _get_file_extension. rewrite H.
  split; [apply content_type_map_known|].
  split; [by intros other ->|].
  split; [apply dict_get_unknown|]. by split.
Qed.

Lemma file_extension_from_content_type_witness :
  _get_file_extension "localhost/scan" "IMAGE/PNG" ∈ known_extensions.
Proof.
  apply (file_extension_from_content_type "localhost/scan" "IMAGE/PNG").
  apply contains_absent. reflexivity.
Defined.

(** ** The life of a handler *)

Lemma stage_frame_writes (key : string) (body : Aggregate -> exc Aggregate)
    (stage : Aggregate -> Aggregate) (a : Aggregate) :
  stage_frame key body stage -> writes_only key a (stage a).
Proof.
  intros H. destruct (H a) as (_ & Hraise & Hok).
  destruct (body a) as [r|e] eqn:E.
  - destruct (Hok r eq_refl) as [-> ?]. done.
  - left. apply Hraise. by exists e.
Qed.

Lemma gated_stage_base (gate : bool) (name key : string)
    (body : Aggregate -> exc Aggregate) (stage : Aggregate -> Aggregate)
    (path format content : string) (a r : Aggregate) :
  stage_frame key body stage -> key ∈ result_keys ->
  key <> "content" -> key <> "output_format" -> key <> "metadata" ->
  base_entries path format content a ->
  (if gate then use_feature name (stage a) else Ok a) = Ok r ->
  base_entries path format content r.
Proof.
  intros Hframe Hin Hc Hf Hm (Ha1 & Ha2 & (m & Ha3 & Hp & Ht) & Ha4).
  destruct gate;
    [|intros [= <-]; split; [done|split; [done|split; [by exists m|done]]]].
  pose proof (stage_frame_writes key body stage a Hframe) as Hw.
  assert (Hdom : dom (stage a) ⊆ result_keys).
  { destruct Hw as [->|[v ->]]; [done|]. rewrite dom_insert_L. set_solver. }
  unfold use_feature, getitem.
  rewrite (writes_only_lookup key "metadata" a (stage a) Hw) by done.
  rewrite Ha3. simpl. intros [= <-].
  split; [|split; [|split]].
  - rewrite lookup_insert_ne by done.
    by rewrite (writes_only_lookup key "content" a (stage a) Hw).
  - rewrite lookup_insert_ne by done.
    by rewrite (writes_only_lookup key "output_format" a (stage a) Hw).
  - eexists. rewrite lookup_insert_eq. split; [reflexivity|]. done.
  - rewrite dom_insert_L. unfold result_keys in *. set_solver.
Qed.

Section Lifecycle.

Context {Image : Type}.
Variable caption_model : Image -> exc string.
Variable finditer : string -> string -> list Match.
Variable new_converter : exc Converter.
Variable load_image_model : exc unit.
Variable load_formula_model : exc unit.
Variable convert_file : Converter -> string -> exc (ConversionResult Image).

Implicit Types (self : Handler) (req : Request).

Abbreviation run := (convert_document caption_model finditer new_converter
                       load_image_model load_formula_model convert_file).
Abbreviation ready := (is_ready new_converter load_image_model load_formula_model).

Lemma enhanced_processing_base self req (result : ConversionResult Image)
    (content : string) (r : Aggregate) :
  enhanced_processing caption_model finditer self req result content = Ok r ->
  base_entries (req_file_path req) (output_format req) content r.
Proof.
  unfold enhanced_processing.
  set (a0 := <["metadata" := _]> _).
  assert (H0 : base_entries (req_file_path req) (output_format req) content a0).
  { unfold a0. split; [done|]. split; [done|]. split.
    - eexists. by rewrite lookup_insert_eq.
    - rewrite !dom_insert_L. unfold result_keys. set_solver. }
  destruct (if include_images req && _ && _ then _ else _) as [a1|] eqn:E1;
    simpl; [|done].
  destruct (if include_formula_enrichment req && _ then _ else _) as [a2|] eqn:E2;
    simpl; [|done].
  destruct (if include_tables req then _ else _) as [a3|] eqn:E3; simpl; [|done].
  destruct (if enhance_content req then _ else _) as [a4|] eqn:E4; simpl; [|done].
  intros E5.
  assert (Hin : forall k, k ∈ [ "image_descriptions"; "formula_enrichments";
                                "table_analysis"; "content_enhancement";
                                "document_structure" ] -> k ∈ result_keys).
  { intros k Hk. unfold result_keys. set_solver. }
  pose proof (gated_stage_base _ _ _ _ _ _ _ _ _ _
                (_add_image_descriptions_frame caption_model self result)
                ltac:(apply Hin; set_solver) ltac:(done) ltac:(done) ltac:(done)
                H0 E1) as H1.
  pose proof (gated_stage_base _ _ _ _ _ _ _ _ _ _
                (_enrich_formulas_frame finditer self result)
                ltac:(apply Hin; set_solver) ltac:(done) ltac:(done) ltac:(done)
                H1 E2) as H2.
  pose proof (gated_stage_base _ _ _ _ _ _ _ _ _ _
                (_analyze_tables_frame result)
                ltac:(apply Hin; set_solver) ltac:(done) ltac:(done) ltac:(done)
                H2 E3) as H3.
  pose proof (gated_stage_base _ _ _ _ _ _ _ _ _ _
                _enhance_content_frame
                ltac:(apply Hin; set_solver) ltac:(done) ltac:(done) ltac:(done)
                H3 E4) as H4.
  exact (gated_stage_base true _ _ _ _ _ _ _ _ _
           (_analyze_document_structure_frame result)
           ltac:(apply Hin; set_solver) ltac:(done) ltac:(done) ltac:(done)
           H4 E5).
Qed.

(** What a call makes of the handler and how its outcome is reached. *)
Lemma convert_document_unfold self req :
  exists s1 ready_,
    ready self = (s1, ready_) /\
    if ready_ then
      exists c,
        let s2 := match given_languages req with
                  | Some languages => _update_ocr_languages s1 languages
                  | None => s1
                  end in
        converter s2 = Some c /\
        run self req =
        (s2, result ← convert_file c (req_file_path req);
             content ← export_of (output_format req) result;
             enhanced_processing caption_model finditer s2 req result content)
    else run self req = (s1, Raise "Docling handler is not ready").
Proof.
  unfold convert_document. destruct (ready self) as [s1 [|]] eqn:R; simpl.
  - exists s1, true. split; [done|].
    destruct (is_ready_true _ _ _ _ _ R) as [Hm Hc].
    assert (is_Some (converter match given_languages req with
                               | Some languages => _update_ocr_languages s1 languages
                               | None => s1
                               end)) as [c Hcs].
    { destruct (given_languages req); [|done]. by apply _update_ocr_languages_ready. }
    exists c. split; [done|]. by rewrite Hcs.
  - exists s1, false. done.
Qed.

(** X4. [is_ready] answers true only for a handler that is loaded and has
    a converter, and such a handler is then ready as it is; when it answers
    false it leaves the handler as it found it, and it never touches a
    handler already marked loaded. *)
Theorem is_ready_outcome self :
  (forall self',
     is_ready new_converter load_image_model load_formula_model self = (self', true) ->
     model_loaded self' = true /\ is_Some (converter self') /\
     is_ready new_converter load_image_model load_formula_model self' = (self', true)) /\
  (forall self',
     is_ready new_converter load_image_model load_formula_model self = (self', false) ->
     self' = self) /\
  (model_loaded self = true ->
   (is_ready new_converter load_image_model load_formula_model self).1 = self).
Proof.
  split; [|split].
  - intros self' R. destruct (is_ready_true _ _ _ _ _ R) as [Hm Hc].
    split; [done|]. split; [done|]. by apply is_ready_loaded.
  - unfold is_ready, initialize. destruct (model_loaded self); simpl.
    + by intros self' [= <- _].
    + destruct new_converter; [|by intros self' [= <-]].
      intros self' [= _ H]. exfalso. revert H. simpl.
      unfold _initialize_formula_model, _initialize_image_model, catch.
      destruct load_image_model, load_formula_model; done.
  - unfold is_ready. by intros ->.
Qed.

(** X5. Once a handler is marked loaded, no call of [convert_document]
    changes its readiness flags: a model that did not load when the
    handler was initialised is not loaded later. And a model that is
    loaded stays loaded through any call. *)
Theorem readiness_flags_are_frozen self req :
  let self' :=
    (convert_document caption_model finditer new_converter load_image_model
       load_formula_model convert_file self req).1 in
  (model_loaded self = true ->
   model_loaded self' = true /\
   image_model_loaded self' = image_model_loaded self /\
   formula_model_loaded self' = formula_model_loaded self) /\
  (image_model_loaded self = true -> image_model_loaded self' = true) /\
  (formula_model_loaded self = true -> formula_model_loaded self' = true).
Proof.
  cbv zeta.
  assert (Hupd : forall s (o : option (list string)),
            let s' := match o with
                      | Some languages => _update_ocr_languages s languages
                      | None => s
                      end in
            model_loaded s' = model_loaded s /\
            image_model_loaded s' = image_model_loaded s /\
            formula_model_loaded s' = formula_model_loaded s).
  { intros s [languages|]; simpl; [|done]. unfold _update_ocr_languages.
    by destruct (converter s) as [[[options|]]|]. }
  assert (Hready : forall s1 b, ready self = (s1, b) ->
            (model_loaded self = true -> s1 = self) /\
            (image_model_loaded self = true -> image_model_loaded s1 = true) /\
            (formula_model_loaded self = true -> formula_model_loaded s1 = true)).
  { intros s1 b. unfold is_ready, initialize.
    destruct (model_loaded self); simpl.
    - by intros [= <- _].
    - destruct new_converter; [|by intros [= <- _]].
      intros [= <- _]. simpl.
      unfold _initialize_formula_model, _initialize_image_model, catch.
      destruct load_image_model, load_formula_model; simpl; split; try done;
        split; try done; by intros ->. }
  destruct (convert_document_unfold self req) as (s1 & b & R & H).
  destruct (Hready s1 b R) as (Hs & Hi & Hf).
  destruct b.
  - destruct H as (c & _ & ->). simpl.
    destruct (Hupd s1 (given_languages req)) as (Um & Ui & Uf).
    rewrite Um, Ui, Uf. split; [|split]; [|done|done].
    intros Hm. by rewrite (Hs Hm).
  - rewrite H. simpl. split; [|done]. intros Hm. by rewrite (Hs Hm).
Qed.

(** X6. After [cleanup], a handler that was loaded is never ready again:
    [cleanup] drops the converter and leaves the handler marked loaded, so
    [is_ready] does not initialise it anew, and every call of
    [convert_document] raises "Docling handler is not ready" and leaves
    the handler as it is. *)
Theorem cleaned_up_handler_is_never_ready self req :
  model_loaded self = true ->
  ready (cleanup self) = (cleanup self, false) /\
  run (cleanup self) req = (cleanup self, Raise "Docling handler is not ready").
Proof.
  intros Hm. unfold convert_document, is_ready, cleanup. simpl. by rewrite Hm.
Qed.

(** X7. A ready handler keeps the languages of a request that gives some:
    after the call every format option of the converter that has OCR
    parameters holds the languages of the request, the options without
    OCR parameters and the number of options are as before, and so are
    the flags of the handler; they stay so over the requests to come that
    give no languages. A request that gives none, or a converter without
    format options, leaves the handler as it is. Of two updates the last
    one wins. *)
Theorem ocr_languages_persist self req :
  model_loaded self = true ->
  is_Some (converter self) ->
  (convert_document caption_model finditer new_converter load_image_model
     load_formula_model convert_file self req).1 =
    match given_languages req with
    | Some languages => _update_ocr_languages self languages
    | None => self
    end /\
  (forall first last,
     _update_ocr_languages (_update_ocr_languages self first) last
     = _update_ocr_languages self last) /\
  (forall self',
     self' = (convert_document caption_model finditer new_converter load_image_model
                load_formula_model convert_file self req).1 ->
     model_loaded self' = true /\
     image_model_loaded self' = image_model_loaded self /\
     formula_model_loaded self' = formula_model_loaded self /\
     (given_languages req = None -> self' = self) /\
     (converter self = Some {| format_options := None |} -> self' = self) /\
     (forall languages options,
        given_languages req = Some languages ->
        converter self = Some {| format_options := Some options |} ->
        exists options',
          converter self' = Some {| format_options := Some options' |} /\
          length options' = length options /\
          forall i format_option,
            options !! i = Some format_option ->
            (is_Some (ocr_params format_option) ->
             options' !! i = Some {| ocr_params := Some languages |}) /\
            (ocr_params format_option = None ->
             options' !! i = Some format_option)) /\
     (forall req',
        given_languages req' = None ->
        (convert_document caption_model finditer new_converter load_image_model
           load_formula_model convert_file self' req').1 = self')).
Proof.
  intros Hm Hc.
  assert (Hrun : forall s r, model_loaded s = true -> is_Some (converter s) ->
            (run s r).1 = match given_languages r with
                          | Some languages => _update_ocr_languages s languages
                          | None => s
                          end).
  { intros s r Hs Hcs.
    destruct (convert_document_unfold s r) as (s1 & b & R & H).
    rewrite (is_ready_loaded _ _ _ s Hs Hcs) in R. injection R as <- <-.
    by destruct H as (c & _ & ->). }
  split; [by apply Hrun|]. split.
  { intros first last. unfold _update_ocr_languages.
    destruct (converter self) as [[[options|]]|] eqn:E; simpl; rewrite ?E; try done.
    do 4 f_equal. rewrite <- list_fmap_compose. apply list_fmap_ext.
    intros _ [[l|]] _; done. }
  intros self' ->. rewrite (Hrun self req Hm Hc).
  assert (Hready : forall languages,
            model_loaded (_update_ocr_languages self languages) = true /\
            is_Some (converter (_update_ocr_languages self languages))).
  { intros languages. unfold _update_ocr_languages.
    destruct (converter self) as [[[options|]]|] eqn:E; simpl; rewrite ?E; eauto. }
  split; [|split; [|split; [|split; [|split; [|split]]]]].
  - destruct (given_languages req); [apply Hready|done].
  - destruct (given_languages req); [|done]. unfold _update_ocr_languages.
    by destruct (converter self) as [[[options|]]|].
  - destruct (given_languages req); [|done]. unfold _update_ocr_languages.
    by destruct (converter self) as [[[options|]]|].
  - by intros ->.
  - intros E. destruct (given_languages req); [|done].
    unfold _update_ocr_languages. by rewrite E.
  - intros languages options -> E. unfold _update_ocr_languages. rewrite E.
    eexists. split; [reflexivity|]. split; [by rewrite length_fmap|].
    intros i format_option Hi. rewrite list_lookup_fmap, Hi. simpl.
    split.
    + by intros [l ->].
    + by intros ->.
  - intros req' Hnone.
    destruct (given_languages req) as [languages|].
    + destruct (Hready languages) as [H1 H2]. by rewrite (Hrun _ req' H1 H2), Hnone.
    + by rewrite (Hrun _ req' Hm Hc), Hnone.
Qed.

(** X8. A call of [convert_document] fails for one of three reasons only:
    the handler is not ready, the conversion raises, or the export of the
    text raises; in the last two cases the exception is the one the
    caller gets. No exception of an enrichment stage reaches the caller. *)
Theorem convert_document_failures self req self' (e : string) :
  run self req = (self', Raise e) ->
  e = "Docling handler is not ready" \/
  exists c,
    converter self' = Some c /\
    (convert_file c (req_file_path req) = Raise e \/
     exists result,
       convert_file c (req_file_path req) = Ok result /\
       export_of (output_format req) result = Raise e).
Proof.
  intros Hrun. destruct (convert_document_unfold self req) as (s1 & b & R & H).
  destruct b.
  - destruct H as (c & Hc & H). rewrite H in Hrun. injection Hrun as <- Hout.
    right. exists c. split; [done|].
    destruct (convert_file c (req_file_path req)) as [result|e'] eqn:Ec; simpl in Hout.
    + right. exists result. split; [done|].
      destruct (export_of (output_format req) result) as [content|e''] eqn:Ee;
        simpl in Hout; [|congruence].
      destruct (enhanced_processing_features caption_model finditer
                  match given_languages req with
                  | Some languages => _update_ocr_languages s1 languages
                  | None => s1
                  end req result content) as (r & Hr & _).
      congruence.
    + left. congruence.
  - rewrite H in Hrun. left. congruence.
Qed.

(** How a returned result was reached. *)
Lemma convert_document_result self req self' (r : Aggregate) :
  run self req = (self', Ok r) ->
  exists c result content,
    converter self' = Some c /\
    convert_file c (req_file_path req) = Ok result /\
    export_of (output_format req) result = Ok content /\
    enhanced_processing caption_model finditer self' req result content = Ok r.
Proof.
  intros Hrun. destruct (convert_document_unfold self req) as (s1 & b & R & H).
  destruct b; [|rewrite H in Hrun; congruence].
  destruct H as (c & Hc & H). rewrite H in Hrun. injection Hrun as <- Hout.
  destruct (convert_file c (req_file_path req)) as [result|] eqn:Ec;
    simpl in Hout; [|done].
  destruct (export_of (output_format req) result) as [content|] eqn:Ee;
    simpl in Hout; [|done].
  by exists c, result, content.
Qed.

(** X9. A result [convert_document] returns holds the text the engine
    exported (as HTML when the output format is "html" in any case, as
    markdown otherwise) under "content", the output format as it was asked
    for under "output_format", and under "metadata" the path of the file
    and no processing time; it holds no key besides these three and the
    five of the stages. *)
Theorem converted_result_entries self req self' (r : Aggregate) :
  run self req = (self', Ok r) ->
  exists c result content,
    converter self' = Some c /\
    convert_file c (req_file_path req) = Ok result /\
    export_of (output_format req) result = Ok content /\
    base_entries (req_file_path req) (output_format req) content r.
Proof.
  intros Hrun. destruct (convert_document_unfold self req) as (s1 & b & R & H).
  destruct b; [|rewrite H in Hrun; congruence].
  destruct H as (c & Hc & H). rewrite H in Hrun. injection Hrun as <- Hout.
  destruct (convert_file c (req_file_path req)) as [result|] eqn:Ec;
    simpl in Hout; [|done].
  destruct (export_of (output_format req) result) as [content|] eqn:Ee;
    simpl in Hout; [|done].
  exists c, result, content. repeat split; try done;
    by destruct (enhanced_processing_base _ _ _ _ _ Hout) as (?&?&?&?).
Qed.

End Lifecycle.

(** ** The records of the stages *)

Lemma table_index_of_analysis (table : Table) (i : nat) :
  table_index (_analyze_single_table table i) = i.
Proof.
  unfold _analyze_single_table.
  destruct (t_rows table), (t_columns table); done.
Qed.

Lemma replace_from_erases (c : ascii) (old : string) (skip : nat) (s : string) :
  Py.count_char c (Py.replace_from old "" skip s) <= Py.count_char c s.
Proof.
  revert skip. induction s as [|d s IH]; intros skip; [done|].
  cbn [Py.replace_from]. destruct skip as [|k].
  - destruct (Py.startswith old (String d s)).
    + change ("" +:+ ?x) with x. cbn [Py.count_char].
      specialize (IH (String.length old - 1)). lia.
    + cbn [Py.count_char]. specialize (IH 0). lia.
  - cbn [Py.count_char]. specialize (IH k). lia.
Qed.

Lemma replace_char_erased (c : ascii) (s : string) :
  Py.count_char c (Py.replace (String c "") "" s) = 0.
Proof.
  unfold Py.replace. induction s as [|d s IH]; [done|].
  cbn [Py.replace_from Py.startswith String.length Nat.sub].
  destruct (Ascii.eqb c d) eqn:E.
  - exact IH.
  - cbn [Py.count_char]. by rewrite E.
Qed.

Lemma replace_absent (old new s : string) :
  old <> "" -> Py.contains old s = false -> Py.replace old new s = s.
Proof.
  intros Hold. unfold Py.replace. destruct old as [|a old]; [done|].
  induction s as [|d s IH]; [done|].
  rewrite contains_cons. intros H. apply orb_false_iff in H as [H1 H2].
  cbn [Py.replace_from]. rewrite H1. f_equal. by apply IH.
Qed.

Lemma structure_buckets (elems : list Element) (d : DocumentStructure) :
  let d' := foldl bucket_element d elems in
  ds_headings d' = (ds_headings d ++ omap heading_of elems)%list /\
  ds_lists d' = (ds_lists d ++ omap list_item_of elems)%list /\
  ds_sections d' = ds_sections d /\ ds_figures d' = ds_figures d /\
  ds_tables d' = ds_tables d /\ ds_formulas d' = ds_formulas d.
Proof.
  revert d. induction elems as [|e elems IH]; intros d.
  - simpl. by rewrite !app_nil_r.
  - cbn [foldl]. destruct (IH (bucket_element d e)) as (H1 & H2 & H3 & H4 & H5 & H6).
    cbv zeta. rewrite H1, H2, H3, H4, H5, H6. clear.
    unfold bucket_element, heading_of, list_item_of. cbn [omap list_omap].
    destruct (e_label e) as [label|]; [|by repeat case_decide].
    destruct (String.eqb_spec label "heading") as [->|Hh].
    + repeat case_decide; try done. simpl. by rewrite <- app_assoc.
    + destruct (String.eqb_spec label "list") as [->|Hl].
      * repeat case_decide; try done. simpl. by rewrite <- app_assoc.
      * repeat case_decide; try done; congruence.
Qed.

Section Records.

Context {Image : Type}.
Variable caption_model : Image -> exc string.

(** X10. With the captioning model loaded, the image stage stores one
    record per image of the document, in the order of the images, the
    record of the i-th image carrying the index i, the description
    [_generate_image_description] returns and its reverse translation; a
    document without an [images] attribute, or without images, gets the
    empty list. *)
Theorem image_descriptions_follow_the_images (self : Handler)
    (result : ConversionResult Image) (enhanced_result : Aggregate)
    (imgs : list Image) :
  image_model_loaded self = true ->
  attr_or [] (images (document result)) = Ok imgs ->
  exists l,
    _add_image_descriptions caption_model self result enhanced_result
    = <["image_descriptions" := VImageDescriptions l]> enhanced_result /\
    length l = length imgs /\
    (forall i image,
       imgs !! i = Some image ->
       l !! i = Some
         {| img_index := i;
            img_description_fr := _generate_image_description caption_model image;
            img_description_en :=
              _translate_to_english (_generate_image_description caption_model image) |}) /\
    (images (document result) = Missing -> l = []).
Proof.
  intros Hloaded Himgs.
  unfold _add_image_descriptions, _add_image_descriptions_try.
  rewrite Hloaded, Himgs. simpl. eexists. split; [reflexivity|].
  split; [apply describe_images_length|]. split.
  - intros i image Hi. by rewrite (describe_images_lookup _ _ _ _ _ _ Hi).
  - intros Hmissing. rewrite Hmissing in Himgs. by injection Himgs as <-.
Qed.

(** X11. The table stage stores one entry per table of the document, in
    the order of the tables, the entry of the i-th table being what
    [_analyze_single_table] makes of it and carrying the index i, whether
    it is an analysis or an error record; a document without a [tables]
    attribute gets the empty list. *)
Theorem table_analysis_follows_the_tables (result : ConversionResult Image)
    (enhanced_result : Aggregate) (tbls : list Table) :
  attr_or [] (tables (document result)) = Ok tbls ->
  exists l,
    _analyze_tables result enhanced_result
    = <["table_analysis" := VTableAnalysis l]> enhanced_result /\
    length l = length tbls /\
    (forall i table,
       tbls !! i = Some table -> l !! i = Some (_analyze_single_table table i)) /\
    (forall i entry, l !! i = Some entry -> table_index entry = i) /\
    (tables (document result) = Missing -> l = []).
Proof.
  intros Htbls. unfold _analyze_tables, _analyze_tables_try. rewrite Htbls. simpl.
  eexists. split; [reflexivity|].
  assert (Hlookup : forall i table, tbls !! i = Some table ->
            analyze_each (fun table i => Ok (_analyze_single_table table i)) 0 tbls !! i
            = Some (_analyze_single_table table i)).
  { intros i table Hi. by rewrite (analyze_each_lookup _ _ _ _ _ Hi). }
  split; [apply analyze_each_length|]. split; [exact Hlookup|]. split.
  - intros i entry Hi.
    destruct (tbls !! i) as [table|] eqn:Ht.
    + rewrite (Hlookup i table Ht) in Hi. injection Hi as <-.
      apply table_index_of_analysis.
    + apply lookup_lt_Some in Hi. rewrite analyze_each_length in Hi.
      apply lookup_ge_None in Ht. lia.
  - intros Hmissing. rewrite Hmissing in Htbls. by injection Htbls as <-.
Qed.

(** X13. The structure analysis buckets the elements labelled "heading"
    and those labelled "list", each bucket in the order of the elements,
    with "" for a missing text, 1 for a missing level and "bullet" for a
    missing list type; the sections, figures, tables and formulas of the
    outline are always empty. *)
Theorem structure_outline_of_elements (result : ConversionResult Image)
    (enhanced_result : Aggregate) (elems : list Element) :
  attr_or [] (elements (document result)) = Ok elems ->
  _analyze_document_structure result enhanced_result
  = <["document_structure" :=
       VDocumentStructure
         {| ds_sections := [];
            ds_headings := omap heading_of elems;
            ds_lists := omap list_item_of elems;
            ds_figures := []; ds_tables := []; ds_formulas := [] |}]>
    enhanced_result.
Proof.
  intros Helems.
  unfold _analyze_document_structure, _analyze_document_structure_try.
  rewrite Helems. simpl. do 2 f_equal.
  destruct (structure_buckets elems empty_structure) as (H1 & H2 & H3 & H4 & H5 & H6).
  destruct (foldl bucket_element empty_structure elems). simpl in *. by subst.
Qed.

End Records.

(** X12. The enrichment of a formula text never is the "unknown" record:
    its formula is the text without its delimiters and holds no dollar
    sign, its LaTeX form is that formula between two dollar signs, and
    its simplified form is the formula itself. *)
Theorem enriched_formula_is_wrapped_once (formula : string) :
  let enriched := _enrich_single_formula formula in
  fi_formula enriched = clean_formula formula /\
  ~ Py.Occurs "$" (fi_formula enriched) /\
  fi_latex enriched = Some ("$" +:+ fi_formula enriched +:+ "$") /\
  fi_simplified enriched = Some (fi_formula enriched) /\
  fi_type enriched <> "unknown".
Proof.
  cbv zeta. unfold _enrich_single_formula, catch.
  assert (Hclean : ~ Py.Occurs "$" (clean_formula formula)).
  { rewrite occurs_char. intros H. apply H. unfold clean_formula.
    pose proof (replace_char_erased "$" formula) as H0.
    unfold Py.replace at 1 2 3 4.
    repeat match goal with
    | |- Py.count_char _ (Py.replace_from ?old "" 0 ?s) = 0 =>
      pose proof (replace_from_erases "$" old 0 s);
      enough (Py.count_char "$" s = 0) by lia
    end.
    exact H0. }
  repeat match goal with |- context [if ?b then _ else _] => destruct b end;
    simpl; repeat split; done.
Qed.

(** X15. Toward French the replacement is made on the text as it is
    written: a text in which no source phrase of the table occurs in the
    case of the table comes back unchanged, also when a phrase occurs in
    it in another case. *)
Theorem forward_translation_is_case_sensitive (text : string) :
  (forall src dst, (src, dst) ∈ translations_to_french -> ~ Py.Occurs src text) ->
  _translate_to_french text = text.
Proof.
  unfold _translate_to_french.
  assert (Hnonempty : Forall (fun entry => entry.1 <> "") translations_to_french).
  { unfold translations_to_french. repeat constructor; done. }
  revert Hnonempty. generalize translations_to_french as table.
  induction table as [|[src dst] rest IH]; intros Hne H; simpl; [done|].
  inversion_clear Hne.
  destruct (Py.contains src (Py.lower text)).
  - apply replace_absent; [done|]. apply contains_absent, (H src dst). left.
  - apply IH; [done|]. intros s d Hin. apply (H s d). by right.
Qed.

Lemma forward_translation_is_case_sensitive_witness :
  _translate_to_french "A DOG chasing A CAT" = "A DOG chasing A CAT".
Proof.
  apply forward_translation_is_case_sensitive.
  intros src dst Hin. apply contains_absent.
  unfold translations_to_french in Hin.
  repeat (apply elem_of_cons in Hin as [[= -> ->]|Hin]; [reflexivity|]).
  by apply elem_of_nil in Hin.
Defined.

(** X14. For a request with every flag set, the stages a returned result
    of [convert_document] lists in the [features_used] of its metadata
    are, in their order, the features [get_model_info] reports as
    available for the handler the call leaves, the multi-language OCR
    apart, which is no stage: a stage whose model is not loaded is
    reported as unavailable and is not listed. *)
Theorem reported_features_are_the_stages_run {Image : Type}
    (caption_model : Image -> exc string) (finditer : string -> string -> list Match)
    (new_converter : exc Converter) (load_image_model load_formula_model : exc unit)
    (convert_file : Converter -> string -> exc (ConversionResult Image))
    (cuda : bool) (self self' : Handler) (req : Request) (r : Aggregate) :
  include_images req = true ->
  include_tables req = true ->
  include_image_descriptions req = true ->
  include_formula_enrichment req = true ->
  enhance_content req = true ->
  convert_document caption_model finditer new_converter load_image_model
    load_formula_model convert_file self req = (self', Ok r) ->
  exists m,
    r !! "metadata" = Some (VMetadata m) /\
    features_used m =
    filter (fun name => name <> "multi_language_ocr")
           (filter (fun feature => feature.2 = true)
                   (features (get_model_info cuda self'))).*1.
Proof.
  intros H1 H2 H3 H4 H5 Hrun.
  destruct (convert_document_returns _ _ _ _ _ _ _ _ _ _ Hrun)
    as (result & content & E).
  destruct (enhanced_processing_features caption_model finditer self' req result content)
    as (r' & E' & F).
  assert (r' = r) as -> by congruence.
  unfold features_of in F.
  destruct (r !! "metadata") as [[]|]; try done.
  injection F as F. eexists. split; [reflexivity|]. rewrite F.
  unfold gated_stages, get_model_info. rewrite H1, H2, H3, H4, H5. cbn [features].
  destruct (image_model_loaded self'), (formula_model_loaded self'); reflexivity.
Qed.

Lemma reported_features_are_the_stages_run_witness :
  exists r,
    convert_document Sample.failing_caption Sample.no_match (Raise "unused") (Ok ())
      (Ok ()) Scenario.converts Sample.loaded Sample.all_features
    = (Sample.loaded, Ok r) /\
    exists m,
      r !! "metadata" = Some (VMetadata m) /\
      features_used m =
      filter (fun name => name <> "multi_language_ocr")
             (filter (fun feature => feature.2 = true)
                     (features (get_model_info false Sample.loaded))).*1.
Proof.
  eexists. split; [reflexivity|].
  apply (reported_features_are_the_stages_run Sample.failing_caption Sample.no_match
           (Raise "unused") (Ok ()) (Ok ()) Scenario.converts false Sample.loaded
           Sample.loaded Sample.all_features); reflexivity.
Defined.

(** ** Conversion from a URL *)

Section Remote.

Context {Image : Type}.
Variable caption_model : Image -> exc string.
Variable finditer : string -> string -> list Match.
Variable new_converter : exc Converter.
Variable load_image_model : exc unit.
Variable load_formula_model : exc unit.
Variable engine : Files -> Converter -> string -> exc (ConversionResult Image).
Variable http_get : string -> exc HttpResponse.
Variable temp_name : Files -> string -> string.

Abbreviation from_url :=
  (convert_from_url caption_model finditer new_converter load_image_model
     load_formula_model engine http_get temp_name).

Lemma convert_document_base (convert_file : Converter -> string -> exc (ConversionResult Image))
    (self : Handler) (req : Request) (self' : Handler) (r : Aggregate) :
  convert_document caption_model finditer new_converter load_image_model
    load_formula_model convert_file self req = (self', Ok r) ->
  exists content, base_entries (req_file_path req) (output_format req) content r.
Proof.
  intros H. destruct (convert_document_returns _ _ _ _ _ _ _ _ _ _ H)
    as (result & content & E).
  exists content. by apply (enhanced_processing_base _ _ _ _ _ _ _ E).
Qed.

Lemma named_temporary_file_slash (files : Files) (suffix : string) :
  Py.Occurs "/" suffix -> raises (named_temporary_file temp_name files suffix).
Proof.
  intros H. apply contains_occurs in H. unfold named_temporary_file. rewrite H.
  by eexists.
Qed.

Lemma named_temporary_file_plain (files : Files) (suffix : string) :
  ~ Py.Occurs "/" suffix ->
  named_temporary_file temp_name files suffix = Ok (temp_name files suffix).
Proof.
  intros H. apply contains_absent in H. unfold named_temporary_file. by rewrite H.
Qed.


End Remote.

(** ** The serverless entry point *)

Section Service.

Import Serverless.

Context {Image : Type}.
Variable caption_model : Image -> exc string.
Variable finditer : string -> string -> list Match.
Variable new_converter : exc Converter.
Variable load_image_model : exc unit.
Variable load_formula_model : exc unit.
Variable engine : Files -> Converter -> string -> exc (ConversionResult Image).
Variable temp_name : Files -> string -> string.
Variable cuda : bool.
Variable b64decode : Json -> exc string.
Variable after_binding : World -> Json -> World * Response.

Abbreviation from_base64 :=
  (handle_base64_conversion caption_model finditer new_converter load_image_model
     load_formula_model engine temp_name b64decode).
Abbreviation from_url := (handle_url_conversion after_binding).
Abbreviation batch :=
  (handle_batch_conversion caption_model finditer new_converter load_image_model
     load_formula_model engine temp_name b64decode after_binding).
Abbreviation serve :=
  (handler caption_model finditer new_converter load_image_model
     load_formula_model engine temp_name cuda b64decode after_binding).
Abbreviation start :=
  (initialize_handler new_converter load_image_model load_formula_model).

Lemma keywords_do_not_bind :
  exists e, bind_keywords convert_from_url_parameters handle_url_conversion_keywords
            = Raise e.
Proof. eexists. reflexivity. Qed.

Lemma handle_url_conversion_fails (w : World) (input_data : Json) :
  exists e, from_url w input_data = (w, Failure e).
Proof.
  unfold handle_url_conversion.
  destruct (subscript input_data "document_url"); cbn [mbind exc_bind]; [|eauto].
  destruct (the_handler w); cbn [mbind exc_bind]; [|eauto].
  destruct keywords_do_not_bind as [e ->]. eauto.
Qed.

(** X17. [handle_url_conversion] never converts anything: it passes
    [convert_from_url] keywords the method does not declare, the first
    being [include_image_descriptions], so the call raises when it is
    bound, and the response is a failure whatever the input is; the state
    of the module is left as it was. *)
Theorem url_conversion_always_fails (w : World) (input_data : Json) :
  (exists e, from_url w input_data = (w, Failure e)) /\
  "include_image_descriptions" ∈ handle_url_conversion_keywords /\
  "include_image_descriptions" ∉ convert_from_url_parameters.
Proof.
  split; [apply handle_url_conversion_fails|].
  unfold handle_url_conversion_keywords, convert_from_url_parameters.
  split; set_solver.
Qed.

Lemma initialize_handler_some (w w1 : World) :
  start w = (w1, Ok ()) -> is_Some (docling_handler w1).
Proof.
  unfold initialize_handler. destruct (docling_handler w) as [h|] eqn:E.
  - intros [= <-]. by rewrite E.
  - destruct (initialize _ _ _ _). intros [= <- _]. simpl. eauto.
Qed.

(** X18. Once the handler is initialised, [handler] answers by the first
    of these that applies: "No input data provided" for an input that is
    missing or false; the URL conversion, hence a failure, for a dict with
    "document_url", whatever else it holds; the base64 conversion for one
    with "document_base64"; the model information for one with
    "get_model_info"; and for any other dict, such as a batch with only
    "documents", the error that names the three keys. *)
Theorem handler_dispatch (w w1 : World) (event input_data : Json) :
  start w = (w1, Ok ()) ->
  get event "input" (JDict []) = Ok input_data ->
  (truthy input_data = false ->
   serve w event = Some (w1, Failure "No input data provided")) /\
  (forall items,
     input_data = JDict items ->
     is_Some (lookup_item items "document_url") ->
     exists e, serve w event = Some (w1, Failure e)) /\
  (forall items,
     input_data = JDict items ->
     lookup_item items "document_url" = None ->
     is_Some (lookup_item items "document_base64") ->
     serve w event = from_base64 w1 input_data) /\
  (forall items,
     input_data = JDict items ->
     lookup_item items "document_url" = None ->
     lookup_item items "document_base64" = None ->
     is_Some (lookup_item items "get_model_info") ->
     exists self info,
       docling_handler w1 = Some self /\
       serve w event = Some (w1, Info info) /\
       model_info info = get_model_info cuda self) /\
  (forall items,
     input_data = JDict items ->
     items <> [] ->
     lookup_item items "document_url" = None ->
     lookup_item items "document_base64" = None ->
     lookup_item items "get_model_info" = None ->
     serve w event = Some (w1, Failure
       "Either 'document_url', 'document_base64', or 'get_model_info' must be provided")).
Proof.
  intros Hstart Hget. unfold handler. rewrite Hstart. simpl. rewrite Hget.
  split; [by intros ->|].
  split; [|split; [|split]].
  - intros items -> Hurl.
    assert (truthy (JDict items) = true) as -> by (destruct items; [by destruct Hurl|done]).
    simpl. rewrite bool_decide_eq_true_2 by done.
    destruct (handle_url_conversion_fails w1 (JDict items)) as [e ->]. eauto.
  - intros items -> Hurl Hb64.
    assert (truthy (JDict items) = true) as -> by (destruct items; [by destruct Hb64|done]).
    simpl. rewrite Hurl.
    rewrite bool_decide_eq_false_2 by (by intros [? ?]).
    by rewrite bool_decide_eq_true_2.
  - intros items -> Hurl Hb64 Hinfo.
    assert (truthy (JDict items) = true) as -> by (destruct items; [by destruct Hinfo|done]).
    simpl. rewrite Hurl, Hb64.
    rewrite !bool_decide_eq_false_2 by (by intros [? ?]).
    rewrite bool_decide_eq_true_2 by done.
    destruct (initialize_handler_some _ _ Hstart) as [self Hself].
    unfold handle_model_info_request, the_handler. rewrite Hself. simpl. eauto.
  - intros items -> Hne Hurl Hb64 Hinfo.
    assert (truthy (JDict items) = true) as -> by (by destruct items).
    simpl. rewrite Hurl, Hb64, Hinfo.
    by rewrite !bool_decide_eq_false_2 by (by intros [? ?]).
Qed.

Lemma typed_request_path (path : string) (input_data : Json) (req : Request) :
  typed_request path input_data = Some req -> req_file_path req = path.
Proof.
  unfold typed_request.
  destruct (get input_data "output_format" _) as [[]|]; try done.
  destruct (get input_data "include_images" _); try done.
  destruct (get input_data "include_tables" _); try done.
  destruct (get input_data "include_image_descriptions" _); try done.
  destruct (get input_data "include_formula_enrichment" _); try done.
  destruct (get input_data "ocr_languages" _); try done.
  destruct (get input_data "enhance_content" _); try done.
  destruct (languages_of _); simpl; [|done]. by intros [= <-].
Qed.

Lemma success_response_features (r : Aggregate) (m : Metadata)
    (format source : string) (origin : string * Json) :
  r !! "metadata" = Some (VMetadata m) ->
  success_response r format source origin =
  Ok (Conversion
    {| c_content := default (VStr "") (r !! "content");
       c_output_format := format;
       c_source := source;
       c_origin := origin;
       c_enhanced_features := features_used m;
       c_image_descriptions :=
         default (VImageDescriptions []) (r !! "image_descriptions");
       c_formula_enrichments :=
         default (VFormulaEnrichments []) (r !! "formula_enrichments");
       c_table_analysis := default (VTableAnalysis []) (r !! "table_analysis");
       c_content_enhancement := r !! "content_enhancement";
       c_document_structure := r !! "document_structure";
       c_metadata := Some (VMetadata m) |}).
Proof.
  intros H. unfold success_response, enhanced_features_of. by rewrite H.
Qed.

(** X19. [handle_base64_conversion] leaves no temporary file behind: when
    the name it is given is that of no file, the files after the call are
    the files before it, whether the conversion returned, raised, or was
    not reached. An input without "document_base64" is answered by a
    failure before any file is written. *)
Theorem base64_conversion_removes_its_file (w : World) (input_data : Json) :
  (forall w' response,
     from_base64 w input_data = Some (w', response) ->
     (forall suffix, temp_files w !! temp_name (temp_files w) suffix = None) ->
     temp_files w' = temp_files w) /\
  (forall e,
     subscript input_data "document_base64" = Raise e ->
     from_base64 w input_data = Some (w, Failure e)).
Proof.
  split.
  - intros w' response H Hfresh. revert H. unfold handle_base64_conversion.
    match goal with |- context [match ?p with Ok _ => _ | Raise _ => _ end] =>
      destruct p as [[data filename]|e] end; [|by intros [= <- _]].
    unfold named_temporary_file.
    destruct (Py.contains "/" _); [by intros [= <- _]|].
    destruct (docling_handler w) as [self|].
    + destruct (typed_request _ _) as [req|]; [|done]. simpl.
      destruct (convert_document _ _ _ _ _ _ _ _) as [self' result].
      intros [= <- _]. simpl. by rewrite delete_insert_eq, delete_id.
    + intros [= <- _]. simpl. by rewrite delete_insert_eq, delete_id.
  - intros e H. unfold handle_base64_conversion. by rewrite H.
Qed.

Lemma typed_request_inv (path : string) (input_data : Json) (req : Request) :
  typed_request path input_data = Some req ->
  exists format images tables descriptions formulas enhance languages,
    get input_data "output_format" (JStr "markdown") = Ok (JStr format) /\
    get input_data "include_images" (JBool true) = Ok images /\
    get input_data "include_tables" (JBool true) = Ok tables /\
    get input_data "include_image_descriptions" (JBool true) = Ok descriptions /\
    get input_data "include_formula_enrichment" (JBool true) = Ok formulas /\
    get input_data "enhance_content" (JBool true) = Ok enhance /\
    req = {| req_file_path := path;
             output_format := format;
             include_images := truthy images;
             include_tables := truthy tables;
             include_image_descriptions := truthy descriptions;
             include_formula_enrichment := truthy formulas;
             ocr_languages := languages;
             enhance_content := truthy enhance |}.
Proof.
  unfold typed_request.
  destruct (get input_data "output_format" _) as [[]|]; try done.
  destruct (get input_data "include_images" _); try done.
  destruct (get input_data "include_tables" _); try done.
  destruct (get input_data "include_image_descriptions" _); try done.
  destruct (get input_data "include_formula_enrichment" _); try done.
  destruct (get input_data "ocr_languages" _); try done.
  destruct (get input_data "enhance_content" _); try done.
  destruct (languages_of _) as [languages|]; simpl; [|done]. intros [= <-].
  eexists _, _, _, _, _, _, _. repeat split; reflexivity.
Qed.

(** X20. A successful response of [handle_base64_conversion] echoes the
    file name of the input and its output format, "markdown" when the
    input gives none; its content is the text the engine exported, in
    this format, from the temporary file that holds the decoded document;
    it carries the metadata of the result, with the path of this file,
    and lists as enhanced features the manifest of the result: the
    stages whose flag in the input holds, a flag missing from the input
    counting as set, and whose model, for the first two, is loaded. *)
Theorem base64_conversion_response (w : World) (input_data : Json) (w' : World)
    (c : Converted) :
  handle_base64_conversion caption_model finditer new_converter load_image_model
    load_formula_model engine temp_name b64decode w input_data
  = Some (w', Conversion c) ->
  exists (self' : Handler) (document : Json) (data filename format content : string)
         (images tables descriptions formulas enhance : Json)
         (configuration : Converter) (result : ConversionResult Image) (m : Metadata),
    let path := temp_name (temp_files w) ("." +:+ last_piece (Py.split "." filename)) in
    docling_handler w' = Some self' /\
    subscript input_data "document_base64" = Ok document /\
    b64decode document = Ok data /\
    get input_data "filename" (JStr "document.pdf") = Ok (JStr filename) /\
    get input_data "output_format" (JStr "markdown") = Ok (JStr format) /\
    get input_data "include_images" (JBool true) = Ok images /\
    get input_data "include_tables" (JBool true) = Ok tables /\
    get input_data "include_image_descriptions" (JBool true) = Ok descriptions /\
    get input_data "include_formula_enrichment" (JBool true) = Ok formulas /\
    get input_data "enhance_content" (JBool true) = Ok enhance /\
    converter self' = Some configuration /\
    engine (<[path := data]> (temp_files w)) configuration path = Ok result /\
    export_of format result = Ok content /\
    c_source c = "base64" /\
    c_origin c = ("filename", JStr filename) /\
    c_output_format c = format /\
    c_content c = VStr content /\
    c_metadata c = Some (VMetadata m) /\
    file_path m = path /\
    c_enhanced_features c = features_used m /\
    features_used m =
    ((if truthy images && truthy descriptions && image_model_loaded self'
      then ["image_descriptions"] else []) ++
     (if truthy formulas && formula_model_loaded self'
      then ["formula_enrichment"] else []) ++
     (if truthy tables then ["table_analysis"] else []) ++
     (if truthy enhance then ["content_enhancement"] else []) ++
     ["structure_analysis"])%list.
Proof.
  unfold handle_base64_conversion.
  destruct (subscript input_data "document_base64") as [d|] eqn:Hd; simpl; [|done].
  destruct (get input_data "filename" (JStr "document.pdf")) as [name|] eqn:Hname;
    simpl; [|done].
  destruct (b64decode d) as [data|] eqn:Hdata; simpl; [|done].
  destruct (json_str name) as [filename|] eqn:Hstr; simpl; [|done].
  assert (name = JStr filename) as -> by (destruct name; try done; by injection Hstr as ->).
  unfold named_temporary_file. destruct (Py.contains "/" _); [done|].
  destruct (docling_handler w) as [self|]; [|done].
  destruct (typed_request _ _) as [req|] eqn:Hreq; [|done]. simpl.
  destruct (convert_document _ _ _ _ _ _ _ _) as [self' [r|]] eqn:Hrun;
    simpl; [|done].
  destruct (convert_document_result _ _ _ _ _ _ _ _ _ _ Hrun)
    as (configuration & result & content & Hc & Hengine & Hexport & Hproc).
  destruct (enhanced_processing_base _ _ _ _ _ _ _ Hproc)
    as (Hcontent & _ & (m & Hmeta & Hpath & _) & _).
  destruct (enhanced_processing_features caption_model finditer self' req result content)
    as (r' & Hr' & Hfeatures).
  assert (r' = r) as -> by congruence.
  unfold features_of in Hfeatures. rewrite Hmeta in Hfeatures.
  injection Hfeatures as Hfeatures.
  rewrite (success_response_features r m _ _ _ Hmeta). simpl.
  intros [= <- <-]. simpl.
  destruct (typed_request_inv _ _ _ Hreq)
    as (format & images & tables & descriptions & formulas & enhance & languages
        & G1 & G2 & G3 & G4 & G5 & G6 & ->).
  simpl in *.
  exists self', d, data, filename, format, content, images, tables, descriptions,
    formulas, enhance, configuration, result, m.
  rewrite Hcontent. repeat split; done.
Qed.


Abbreviation one :=
  (convert_one caption_model finditer new_converter load_image_model
     load_formula_model engine temp_name b64decode after_binding).
Abbreviation each :=
  (convert_each caption_model finditer new_converter load_image_model
     load_formula_model engine temp_name b64decode after_binding).

Lemma convert_one_entry (w : World) (i : nat) (doc format images tables : Json)
    (w' : World) (entry : Entry Response) :
  one w i doc format images tables = Some (w', entry) ->
  entry_index entry = i /\
  (contains_key "url" doc = Ok true -> entry_success entry = false).
Proof.
  unfold convert_one. destruct (contains_key "url" doc) as [[|]|].
  - destruct (subscript doc "url") as [url|]; [|by intros [= _ <-]].
    match goal with |- context [handle_url_conversion _ ?w ?d] =>
      destruct (handle_url_conversion_fails w d) as [e ->] end.
    by intros [= _ <-].
  - destruct (contains_key "base64" doc) as [[|]|]; try by intros [= _ <-].
    match goal with |- context [match ?p with Ok _ => _ | Raise _ => _ end] =>
      destruct p as [[data filename]|] end; [|by intros [= _ <-]].
    destruct (handle_base64_conversion _ _ _ _ _ _ _ _ _ _) as [[w1 result]|];
      [|done].
    by intros [= _ <-].
  - by intros [= _ <-].
Qed.

Lemma convert_each_entries (docs : list Json) (w : World) (start_ : nat)
    (format images tables : Json) (w' : World) (results : list (Entry Response)) :
  each w start_ docs format images tables = Some (w', results) ->
  length results = length docs /\
  (forall i entry, results !! i = Some entry -> entry_index entry = start_ + i) /\
  (forall i doc entry,
     docs !! i = Some doc -> results !! i = Some entry ->
     contains_key "url" doc = Ok true -> entry_success entry = false).
Proof.
  revert w start_ w' results.
  induction docs as [|doc docs IH]; intros w start_ w' results; cbn [convert_each].
  - intros [= _ <-]. by repeat split.
  - destruct (one w start_ doc format images tables) as [[w1 entry]|] eqn:E1;
      [|done]. cbn [mbind option_bind].
    destruct (each w1 (S start_) docs format images tables) as [[w2 entries]|] eqn:E2;
      [|done]. cbn [mbind option_bind].
    intros [= _ <-].
    destruct (convert_one_entry _ _ _ _ _ _ _ _ E1) as [Hi Hu].
    destruct (IH _ _ _ _ E2) as (Hlen & Hidx & Hurl).
    split; [simpl; by rewrite Hlen|]. split.
    + intros [|i] entry'; simpl.
      * intros [= <-]. rewrite Hi. lia.
      * intros H. rewrite (Hidx i entry' H). lia.
    + intros [|i] doc' entry'; simpl.
      * by intros [= <-] [= <-].
      * apply Hurl.
Qed.

(** The input [handle_batch_conversion] builds for a document given by
    its "base64" is one [handle_base64_conversion] is modelled on, when
    the output format of the batch is a string. *)
Lemma batch_request_typed (path : string) (data filename : Json) (format : string)
    (images tables : Json) :
  is_Some (typed_request path
    (JDict [ ("document_base64", data); ("filename", filename);
             ("output_format", JStr format); ("include_images", images);
             ("include_tables", tables) ])).
Proof. eexists. reflexivity. Qed.

Lemma handle_base64_conversion_returns (w : World) (data filename : Json)
    (format : string) (images tables : Json) :
  is_Some (from_base64 w
    (JDict [ ("document_base64", data); ("filename", filename);
             ("output_format", JStr format); ("include_images", images);
             ("include_tables", tables) ])).
Proof.
  unfold handle_base64_conversion.
  match goal with |- context [match ?p with Ok _ => _ | Raise _ => _ end] =>
    destruct p as [[document_data name]|] end; [|eauto].
  destruct (named_temporary_file _ _ _) as [path|]; [|eauto].
  destruct (docling_handler w) as [self|]; [|eauto].
  destruct (batch_request_typed path data filename format images tables) as [req ->].
  cbn [mbind option_bind].
  destruct (convert_document _ _ _ _ _ _ _ _). eauto.
Qed.

Lemma convert_one_returns (w : World) (i : nat) (doc : Json) (format : string)
    (images tables : Json) :
  is_Some (one w i doc (JStr format) images tables).
Proof.
  unfold convert_one. destruct (contains_key "url" doc) as [[|]|]; [| |eauto].
  - destruct (subscript doc "url"); [|eauto].
    destruct (handle_url_conversion _ _ _). eauto.
  - destruct (contains_key "base64" doc) as [[|]|]; [|eauto|eauto].
    match goal with |- context [match ?p with Ok _ => _ | Raise _ => _ end] =>
      destruct p as [[data filename]|] end; [|eauto].
    destruct (handle_base64_conversion_returns w data filename format images tables)
      as [[w1 result] ->].
    cbn [mbind option_bind]. eauto.
Qed.

Lemma convert_each_returns (docs : list Json) (w : World) (start_ : nat)
    (format : string) (images tables : Json) :
  is_Some (each w start_ docs (JStr format) images tables).
Proof.
  revert w start_. induction docs as [|doc docs IH]; intros w start_; cbn [convert_each].
  - eauto.
  - destruct (convert_one_returns w start_ doc format images tables) as [[w1 entry] ->].
    cbn [mbind option_bind].
    destruct (IH w1 (S start_)) as [[w2 entries] ->].
    cbn [mbind option_bind]. eauto.
Qed.

(** X22. [handle_batch_conversion] answers every input that is a dict
    with a string as its output format. The answer is "No documents
    provided in batch" when the documents are missing or false, and the
    error of the iteration when they are true and cannot be iterated; the
    state of the module is then as it was. Otherwise the response holds
    one entry per document, in the order of the documents, the i-th with
    the index i; the total is the number of documents and the number of
    successful conversions, the number of entries whose result is a
    success, is at most the total; a document given by its "url" never
    counts as successful. *)
Theorem batch_results (w : World) (input_data : Json) (format : string) :
  get input_data "output_format" (JStr "markdown") = Ok (JStr format) ->
  exists documents w' response,
    get input_data "documents" (JList []) = Ok documents /\
    handle_batch_conversion caption_model finditer new_converter load_image_model
      load_formula_model engine temp_name b64decode after_binding w input_data
    = Some (w', response) /\
    if truthy documents then
      match iterate documents with
      | Raise e => response = Failure e /\ w' = w
      | Ok docs =>
        exists results,
          response =
          BatchResponse results (length docs)
            (length (filter (fun r => entry_success r = true) results)) /\
          length results = length docs /\
          length (filter (fun r => entry_success r = true) results) <= length docs /\
          (forall i entry, results !! i = Some entry -> entry_index entry = i) /\
          (forall i doc entry,
             docs !! i = Some doc -> results !! i = Some entry ->
             contains_key "url" doc = Ok true -> entry_success entry = false)
      end
    else response = Failure "No documents provided in batch" /\ w' = w.
Proof.
  intros Hformat. unfold handle_batch_conversion.
  destruct input_data as [| | | | | |items]; try done.
  cbn [get] in *. injection Hformat as Hformat.
  cbn [mbind exc_bind mret exc_ret]. rewrite Hformat.
  set (documents := from_option id (JList []) (lookup_item items "documents")).
  set (images := from_option id (JBool true) (lookup_item items "include_images")).
  set (tables := from_option id (JBool true) (lookup_item items "include_tables")).
  exists documents.
  destruct (truthy documents) eqn:Htruthy; cbn [negb].
  - destruct (iterate documents) as [docs|e] eqn:Hiter.
    + destruct (convert_each_returns docs w 0 format images tables)
        as [[w' results] E].
      rewrite E. cbn [mbind option_bind].
      eexists _, _. split; [done|]. split; [reflexivity|].
      destruct (convert_each_entries _ _ _ _ _ _ _ _ E) as (Hlen & Hidx & Hurl).
      exists results. split; [done|]. split; [done|].
      split; [rewrite <- Hlen; apply length_filter|].
      split; [|exact Hurl].
      intros i entry H. by rewrite (Hidx i entry H).
    + eexists _, _. split; [done|]. split; [reflexivity|]. done.
  - eexists _, _. split; [done|]. split; [reflexivity|]. done.
Qed.

End Service.

(** ** Instances *)

Lemma cleaned_up_handler_is_never_ready_witness :
  is_ready (Ok {| format_options := None |}) (Ok ()) (Ok ()) (cleanup Sample.loaded)
    = (cleanup Sample.loaded, false) /\
  convert_document Sample.failing_caption Sample.no_match
    (Ok {| format_options := None |}) (Ok ()) (Ok ()) Scenario.converts
    (cleanup Sample.loaded) Sample.all_features
  = (cleanup Sample.loaded, Raise "Docling handler is not ready").
Proof.
  apply (cleaned_up_handler_is_never_ready Sample.failing_caption Sample.no_match
           (Ok {| format_options := None |}) (Ok ()) (Ok ()) Scenario.converts
           Sample.loaded Sample.all_features).
  reflexivity.
Defined.

Lemma ocr_languages_persist_witness :
  converter
    (convert_document Sample.failing_caption Sample.no_match (Raise "unused") (Ok ()) (Ok ())
       Scenario.converts Scenario.configured Scenario.german).1
  = Some {| format_options :=
              Some [ {| ocr_params := Some ["deu"] |}; {| ocr_params := None |} ] |}.
Proof.
  destruct (ocr_languages_persist Sample.failing_caption Sample.no_match (Raise "unused")
              (Ok ()) (Ok ()) Scenario.converts Scenario.configured Scenario.german
              eq_refl (ex_intro _ _ eq_refl)) as (_ & _ & H).
  destruct (H _ eq_refl) as (_ & _ & _ & _ & _ & Hoptions & _).
  destruct (Hoptions ["deu"] _ eq_refl eq_refl) as (options' & Hc & Hlen & Hopt).
  rewrite Hc. do 2 f_equal.
  destruct (Hopt 0 _ eq_refl) as [H0 _].
  destruct (Hopt 1 _ eq_refl) as [_ H1].
  specialize (H0 (ex_intro _ _ eq_refl)). specialize (H1 eq_refl).
  destruct options' as [|o0 [|o1 [|o2 options']]]; simpl in Hlen; try discriminate.
  simpl in H0, H1. congruence.
Defined.

Lemma convert_document_failures_witness :
  "corrupt file" = "Docling handler is not ready" \/
  exists c,
    converter Sample.loaded = Some c /\
    (Scenario.corrupt c "report.pdf" = Raise "corrupt file" \/
     exists result,
       Scenario.corrupt c "report.pdf" = Ok result /\
       export_of "markdown" result = Raise "corrupt file").
Proof.
  apply (convert_document_failures Sample.failing_caption Sample.no_match
           (Raise "unused") (Ok ()) (Ok ()) Scenario.corrupt
           Sample.loaded Sample.all_features Sample.loaded "corrupt file").
  reflexivity.
Defined.

Lemma converted_result_entries_witness :
  exists r,
    convert_document Sample.failing_caption Sample.no_match (Raise "unused") (Ok ())
      (Ok ()) Scenario.converts Scenario.configured Scenario.german
    = (_update_ocr_languages Scenario.configured ["deu"], Ok r) /\
    exists c result content,
      converter (_update_ocr_languages Scenario.configured ["deu"]) = Some c /\
      Scenario.converts c "brief.pdf" = Ok result /\
      export_of "HTML" result = Ok content /\
      base_entries "brief.pdf" "HTML" content r.
Proof.
  eexists. split; [reflexivity|].
  apply (converted_result_entries Sample.failing_caption Sample.no_match
           (Raise "unused") (Ok ()) (Ok ()) Scenario.converts
           Scenario.configured Scenario.german).
  reflexivity.
Defined.

Lemma image_descriptions_follow_the_images_witness :
  exists l,
    _add_image_descriptions Sample.failing_caption Sample.loaded Sample.one_image ∅
    = <["image_descriptions" := VImageDescriptions l]> ∅ /\
    length l = length [7] /\
    (forall i image,
       [7] !! i = Some image ->
       l !! i = Some
         {| img_index := i;
            img_description_fr :=
              _generate_image_description Sample.failing_caption image;
            img_description_en :=
              _translate_to_english
                (_generate_image_description Sample.failing_caption image) |}) /\
    (images (document Sample.one_image) = Missing -> l = []).
Proof.
  apply (image_descriptions_follow_the_images Sample.failing_caption Sample.loaded
           Sample.one_image ∅ [7]); reflexivity.
Defined.

Lemma table_analysis_follows_the_tables_witness :
  exists l,
    _analyze_tables Scenario.two_tables ∅ = <["table_analysis" := VTableAnalysis l]> ∅ /\
    length l = 2 /\
    (forall i table,
       [ {| t_rows := Present 2; t_columns := Present 3 |};
         {| t_rows := Unusable "no len"; t_columns := Missing |} ] !! i = Some table ->
       l !! i = Some (_analyze_single_table table i)) /\
    (forall i entry, l !! i = Some entry -> table_index entry = i) /\
    (tables (document Scenario.two_tables) = Missing -> l = []).
Proof.
  apply (table_analysis_follows_the_tables Scenario.two_tables ∅
           [ {| t_rows := Present 2; t_columns := Present 3 |};
             {| t_rows := Unusable "no len"; t_columns := Missing |} ]).
  reflexivity.
Defined.

Lemma structure_outline_of_elements_witness :
  _analyze_document_structure Scenario.two_tables ∅
  = <["document_structure" :=
       VDocumentStructure
         {| ds_sections := [];
            ds_headings := [ {| h_text := "Title"; h_level := 1 |} ];
            ds_lists := [ {| l_text := ""; l_type := "numbered" |} ];
            ds_figures := []; ds_tables := []; ds_formulas := [] |}]> ∅.
Proof.
  apply (structure_outline_of_elements Scenario.two_tables ∅
           [ {| e_label := Some "heading"; e_text := Some "Title";
                e_level := None; e_list_type := None |};
             {| e_label := Some "paragraph"; e_text := Some "Body";
                e_level := None; e_list_type := None |};
             {| e_label := Some "list"; e_text := None;
                e_level := None; e_list_type := Some "numbered" |} ]).
  reflexivity.
Defined.

Lemma handler_dispatch_witness :
  exists e,
    Serverless.handler Sample.failing_caption Sample.no_match (Raise "unused") (Ok ())
      (Ok ()) Scenario.reads Scenario.temp_name false Scenario.b64decode
      Scenario.after_binding Scenario.warm
      (Serverless.JDict
         [ ("input", Serverless.JDict
              [ ("document_url", Serverless.JStr "http://h/a.pdf");
                ("document_base64", Serverless.JStr "ZGVjb2RlZA==") ]) ])
    = Some (Scenario.warm, Serverless.Failure e).
Proof.
  destruct (handler_dispatch Sample.failing_caption Sample.no_match (Raise "unused")
              (Ok ()) (Ok ()) Scenario.reads Scenario.temp_name false Scenario.b64decode
              Scenario.after_binding Scenario.warm Scenario.warm
              (Serverless.JDict
                 [ ("input", Serverless.JDict
                      [ ("document_url", Serverless.JStr "http://h/a.pdf");
                        ("document_base64", Serverless.JStr "ZGVjb2RlZA==") ]) ])
              (Serverless.JDict
                 [ ("document_url", Serverless.JStr "http://h/a.pdf");
                   ("document_base64", Serverless.JStr "ZGVjb2RlZA==") ]))
    as (_ & Hurl & _); [reflexivity|reflexivity|].
  apply (Hurl _ eq_refl). simpl. eauto.
Defined.

Lemma base64_conversion_response_witness :
  exists w' c,
    Serverless.handle_base64_conversion Sample.failing_caption Sample.no_match
      (Raise "unused") (Ok ()) (Ok ()) Scenario.reads Scenario.temp_name
      Scenario.b64decode Scenario.warm Scenario.base64_input
    = Some (w', Serverless.Conversion c) /\
    Serverless.c_content c = VStr "text" /\
    Serverless.c_output_format c = "markdown" /\
    Serverless.c_enhanced_features c
    = [ "image_descriptions"; "formula_enrichment"; "content_enhancement";
        "structure_analysis" ].
Proof.
  destruct (Serverless.handle_base64_conversion Sample.failing_caption Sample.no_match
      (Raise "unused") (Ok ()) (Ok ()) Scenario.reads Scenario.temp_name
      Scenario.b64decode Scenario.warm Scenario.base64_input)
    as [[w' [ | c | | ]]|] eqn:E; try (vm_compute in E; discriminate).
  exists w', c. split; [reflexivity|].
  destruct (base64_conversion_response Sample.failing_caption Sample.no_match
              (Raise "unused") (Ok ()) (Ok ()) Scenario.reads Scenario.temp_name
              Scenario.b64decode Scenario.warm Scenario.base64_input w' c E)
    as (self' & document & data & filename & format & content & images & tables
        & descriptions & formulas & enhance & configuration & result & m & H).
  cbv zeta in H.
  destruct H as (Hself & _ & _ & _ & Hformat & Himages & Htables & Hdescriptions
                 & Hformulas & Henhance & _ & Hengine & Hexport & _ & _ & Hout
                 & Hcontent & _ & _ & Hfeatures & Hused).
  injection Hformat as <-. injection Himages as <-. injection Htables as <-.
  injection Hdescriptions as <-. injection Hformulas as <-. injection Henhance as <-.
  injection Hengine as <-. injection Hexport as <-.
  split; [exact Hcontent|]. split; [exact Hout|].
  rewrite Hfeatures, Hused.
  assert (Hloaded : self' = Sample.loaded).
  { vm_compute in E. injection E as <- _. vm_compute in Hself. by injection Hself as <-. }
  rewrite Hloaded. reflexivity.
Defined.

Lemma batch_results_witness :
  exists w' results successful,
    Serverless.handle_batch_conversion Sample.failing_caption Sample.no_match
      (Raise "unused") (Ok ()) (Ok ()) Scenario.reads Scenario.temp_name
      Scenario.b64decode Scenario.after_binding Scenario.warm Scenario.batch_input
    = Some (w', Serverless.BatchResponse results 3 successful) /\
    length results = 3 /\
    successful <= 3 /\
    (forall i entry, results !! i = Some entry -> entry_index entry = i).
Proof.
  destruct (batch_results Sample.failing_caption Sample.no_match
              (Raise "unused") (Ok ()) (Ok ()) Scenario.reads Scenario.temp_name
              Scenario.b64decode Scenario.after_binding Scenario.warm
              Scenario.batch_input "markdown" eq_refl)
    as (documents & w' & response & Hdocs & Hrun & Hshape).
  injection Hdocs as <-. simpl in Hshape.
  destruct Hshape as (results & -> & Hlen & Hle & Hidx & _).
  exists w', results. eexists. split; [exact Hrun|]. split; [exact Hlen|].
  split; [exact Hle|exact Hidx].
Defined.



(** ** The statistics of a content *)

Lemma split_char_length (c : ascii) (s : string) :
  length (Py.split (String c "") s) = S (Py.count_char c s).
Proof.
  induction s as [|d s IH]; [done|].
  rewrite split_char_cons. cbn [Py.count_char].
  destruct (Ascii.eqb c d); simpl; [by rewrite IH|].
  destruct (Py.split (String c "") s); simpl in *; [done|lia].
Qed.

Lemma split_ws_from_nil (cur s : string) :
  Py.split_ws_from cur s = [] <-> cur = "" /\ forallb Py.isspace (list_ascii_of_string s) = true.
Proof.
  revert cur. induction s as [|d s IH]; intros cur.
  - simpl. destruct cur; split; try done. by intros [? _].
  - cbn [Py.split_ws_from list_ascii_of_string forallb].
    destruct (Py.isspace d); simpl.
    + destruct cur as [|a cur]; [apply IH|]. split; [done|]. by intros [? _].
    + rewrite IH. split; [|by intros [_ ?]]. intros [H _]. by destruct cur.
Qed.

Lemma paragraphs_le_lines (s : string) :
  length (Py.split (String "010" (String "010" "")) s) <= S (Py.count_char "010" s).
Proof.
  unfold Py.split. generalize 0 as skip.
  induction s as [|d s IH]; intros skip; [simpl; lia|].
  cbn [Py.split_from Py.count_char]. destruct skip as [|k].
  - destruct (Py.startswith _ (String d s)) eqn:E.
    + cbn [Py.startswith] in E. destruct (Ascii.eqb "010" d); [|done].
      specialize (IH (String.length (String "010" (String "010" "")) - 1)).
      cbn [length]. lia.
    + specialize (IH 0). destruct (Py.split_from _ 0 s); simpl in *; lia.
  - specialize (IH k). lia.
Qed.

(** X23. For a textual content, [_enhance_content] stores statistics in
    which the character count is the length of the content, the line
    count is one more than its number of line feeds (1 for the empty
    content), and the word count is zero exactly when the content holds
    nothing but white space, in which case the readability score is 0;
    the detected language is "fr" whatever the content. *)
Theorem content_statistics (enhanced_result : Aggregate) (content : string) :
  enhanced_result !! "content" = Some (VStr content) ->
  exists c,
    _enhance_content enhanced_result !! "content_enhancement"
    = Some (VContentEnhancement c) /\
    character_count (statistics c) = String.length content /\
    line_count (statistics c) = S (Py.count_char "010" content) /\
    (word_count (statistics c) = 0 <->
     forallb Py.isspace (list_ascii_of_string content) = true) /\
    (word_count (statistics c) = 0 -> readability_score c = 0%float) /\
    paragraph_count (statistics c) <= S (Py.count_char "010" content) /\
    language_detected c = "fr".
Proof.
  intros H. unfold _enhance_content, _enhance_content_try, getitem. rewrite H.
  cbn [mbind exc_bind as_str mret exc_ret catch]. rewrite lookup_insert_eq.
  eexists. split; [reflexivity|]. cbn [statistics character_count line_count
    word_count paragraph_count readability_score language_detected].
  split; [done|]. split; [apply split_char_length|]. split; [|split; [|split]].
  - rewrite length_zero_iff_nil. unfold Py.split_ws. rewrite split_ws_from_nil.
    split; [by intros [_ ?]|done].
  - intros Hw. unfold _calculate_readability. cbn [as_str mbind exc_bind catch].
    rewrite Hw. by rewrite orb_true_r.
  - etransitivity; [apply length_filter|]. apply paragraphs_le_lines.
  - done.
Qed.

Lemma content_statistics_witness :
  exists c,
    _enhance_content (<["content" := VStr "  "]> ∅) !! "content_enhancement"
    = Some (VContentEnhancement c) /\
    character_count (statistics c) = 2 /\
    line_count (statistics c) = 1 /\
    (word_count (statistics c) = 0 <->
     forallb Py.isspace (list_ascii_of_string "  ") = true) /\
    (word_count (statistics c) = 0 -> readability_score c = 0%float) /\
    paragraph_count (statistics c) <= 1 /\
    language_detected c = "fr".
Proof.
  apply (content_statistics (<["content" := VStr "  "]> ∅) "  ").
  reflexivity.
Defined.
